(** * Personal expense tracker: ledger and persistence

    A shallow embedding of [expense_tracker.py] and the properties of its
    ledger operations and of its load/save pair.

    Modelling choices.
    - The three module-level globals [expenses], [expense_history] and
      [budgets] are the fields of one [Ledger] record; every function that
      mutates them takes the ledger and returns the new one.
    - The development has two parts.  The first computes with the amounts
      exactly, on [Z], with the dictionaries as [gmap string _]; there
      [float_of_string] and [str] stand for the built-ins [float()] and
      [str()] on the signed decimal integer literals.  It carries the
      properties that depend neither on how floats round, nor on which
      texts [float()] reads, nor on the order of a dictionary.
    - The second part, the module [Binary64], is the same code over the
      floats of Python, IEEE binary64 ([PrimFloat]), NaN and the infinities
      included, with [float()] and [str()] on texts as parameters and the
      dictionaries in insertion order.  It carries the properties of the
      sums, of the amounts that are accepted, and of the files.
    - The [csv] and [json] layers are modelled at the level they hand data
      to the program: the record file is a list of rows, each a list of
      text fields, and the metadata file is a document with two optional
      keys.  In [Binary64] the rows are read back as a file opened in
      universal-newline mode gives them.  The clock is an argument: [today]
      is the text of [datetime.now().strftime(DATE_FORMAT)].
    - Printing is modelled by what is printed: the line that tells the
      outcome of an operation is returned as a [message], and a view or a
      summary returns the rows it prints, before they are formatted.
    - The built-ins [strip], [lower], [isdigit] and [int] are modelled on
      ASCII texts, and the theorems that need it say so of their texts;
      [strptime] and [isocalendar] of [datetime] are parameters of the
      summaries. *)

From Stdlib Require Import ZArith DecimalString DecimalPos DecimalZ.
From Stdlib Require Floats.
From stdpp Require Import gmap strings list fin_maps sorting.

Local Open Scope Z_scope.

(** ** Data model *)

Definition DEFAULT_CATEGORIES : list string :=
  ["Food"; "Transportation"; "Entertainment"; "Utilities"; "Health";
   "Shopping"; "Education"; "Other"]%string.

(** One entry of [expense_history]: the tuple
    [(date, category, amount, description)]. *)
Record record := Rec {
  rec_date : string;
  rec_cat : string;
  rec_amt : Z;
  rec_desc : string
}.

#[global] Instance record_eq_dec : EqDecision record.
Proof. solve_decision. Defined.

Record Ledger := mkLedger {
  expenses : gmap string Z;
  expense_history : list record;
  budgets : gmap string (option Z)
}.

(** The state right after the module is imported. *)
Definition initial_ledger : Ledger :=
  {| expenses := list_to_map ((λ cat, (cat, 0)) <$> DEFAULT_CATEGORIES);
     expense_history := [];
     budgets := list_to_map ((λ cat, (cat, None)) <$> DEFAULT_CATEGORIES) |}.

(** ** Amounts as text *)

(** [float(s)] for a text [s]: [None] is [ValueError]. *)
Definition float_of_string (s : string) : option Z :=
  Z.of_int <$> NilZero.int_of_string s.

(** [str(x)] for an amount, as [csv.writer] and [json.dump] print it. *)
Definition str (x : Z) : string := NilZero.string_of_int (Z.to_int x).

(** The [amount] argument of [add_expense] and [set_budget]: the menu passes
    the text the user typed, other callers may pass a number. *)
Inductive pyarg :=
| PStr (s : string)
| PFloat (x : Z).

Definition float (amount : pyarg) : option Z :=
  match amount with
  | PStr s => float_of_string s
  | PFloat x => Some x
  end.

(** ** Outcomes *)

(** The line an operation returns or prints about its outcome. *)
Inductive message :=
| InvalidCategoryChoose        (* "Invalid category. Please choose from the list." *)
| AmountMustBePositive         (* "Amount must be positive." *)
| InvalidAmountEnterNumber     (* "Invalid amount. Please enter a number." *)
| ExpenseAdded (amount : Z) (category : string)
| BudgetInvalidCategory        (* "Invalid category." *)
| BudgetMustBePositive         (* "Budget must be positive." *)
| BudgetInvalidAmount          (* "Invalid amount." *)
| BudgetSet (category : string) (amount : Z).

Inductive ErrorKind := InvalidCategory | InvalidAmount.

(** The error kind a message reports, if it reports one. *)
Definition error_kind (m : message) : option ErrorKind :=
  match m with
  | InvalidCategoryChoose | BudgetInvalidCategory => Some InvalidCategory
  | AmountMustBePositive | InvalidAmountEnterNumber
  | BudgetMustBePositive | BudgetInvalidAmount => Some InvalidAmount
  | ExpenseAdded _ _ | BudgetSet _ _ => None
  end.

(** ** Data operations *)

Definition add_expense (today : string) (category : string) (amount : pyarg)
    (description : string) (L : Ledger) : Ledger * message :=
  match expenses L !! category with
  | None => (L, InvalidCategoryChoose)
  | Some total =>
    match float amount with
    | None => (L, InvalidAmountEnterNumber)
    | Some amount =>
      if amount <=? 0 then (L, AmountMustBePositive)
      else
        let record := Rec today category amount description in
        ({| expenses := <[category := total + amount]> (expenses L);
            expense_history := expense_history L ++ [record];
            budgets := budgets L |},
         ExpenseAdded amount category)
    end
  end.

(** [sum(expenses.values())]. *)
Definition sum_values (e : gmap string Z) : Z :=
  map_fold (λ _ v acc, acc + v) 0 e.

Definition calculate_total_expenses (L : Ledger) : Z :=
  sum_values (expenses L).

(** [max(expenses.values())]; [None] is the [ValueError] on an empty
    dictionary. *)
Definition max_values (e : gmap string Z) : option Z :=
  map_fold (λ _ v acc, Some (from_option (Z.max v) v acc)) None e.

(** [find_highest_spending_category]: [Some (None, 0)] is the pair
    [(None, 0.0)] returned after "No expenses to analyze.", and
    [Some (Some top_cats, max_amount)] the other return. *)
Definition find_highest_spending_category (L : Ledger)
    : option (option (list string) * Z) :=
  match max_values (expenses L) with
  | None => None
  | Some max_amount =>
    if max_amount =? 0 then Some (None, 0)
    else
      let top_cats :=
        (filter (λ item, item.2 = max_amount) (map_to_list (expenses L))).*1 in
      Some (Some top_cats, max_amount)
  end.

(** Truth value of an optional text argument: [None] and the empty text are
    false. *)
Definition truthy (o : option string) : bool :=
  match o with
  | None => false
  | Some s => negb (String.eqb s "")
  end.

(** [view_expense_history]: the list [filtered], whose entries are the rows
    the function prints. *)
Definition view_expense_history (filter_category start_date end_date : option string)
    (L : Ledger) : list record :=
  fold_left
    (λ filtered rec,
       if truthy filter_category
          && negb (String.eqb (rec_cat rec) (default "" filter_category))
       then filtered
       else if truthy start_date
               && String.ltb (rec_date rec) (default "" start_date)
       then filtered
       else if truthy end_date
               && String.ltb (default "" end_date) (rec_date rec)
       then filtered
       else filtered ++ [rec])
    (expense_history L) [].

Definition set_budget (category : string) (amount : pyarg) (L : Ledger)
    : Ledger * message :=
  match budgets L !! category with
  | None => (L, BudgetInvalidCategory)
  | Some _ =>
    match float amount with
    | None => (L, BudgetInvalidAmount)
    | Some amount =>
      if amount <=? 0 then (L, BudgetMustBePositive)
      else
        ({| expenses := expenses L;
            expense_history := expense_history L;
            budgets := <[category := Some amount]> (budgets L) |},
         BudgetSet category amount)
    end
  end.

Definition remove_all_expenses (L : Ledger) : Ledger :=
  {| expenses := (λ _, 0) <$> expenses L;
     expense_history := [];
     budgets := budgets L |}.

(** ** Persistence *)

(** The metadata document: [meta.get("expenses", {})] and
    [meta.get("budgets", {})] read its two keys. *)
Record meta := mkMeta {
  meta_expenses : option (gmap string Z);
  meta_budgets : option (gmap string (option Z))
}.

(** The two files; [None] is a file that does not exist. *)
Record files := mkFiles {
  record_file : option (list (list string));
  meta_file : option meta
}.

Definition header : list string :=
  ["date"; "category"; "amount"; "description"]%string.

(** [writer.writerow(rec)]. *)
Definition writerow (rec : record) : list string :=
  [rec_date rec; rec_cat rec; str (rec_amt rec); rec_desc rec].

Definition save_data_to_file (L : Ledger) : files :=
  {| record_file := Some (header :: (writerow <$> expense_history L));
     meta_file := Some {| meta_expenses := Some (expenses L);
                          meta_budgets := Some (budgets L) |} |}.

(** A step of the body of [try:]: it runs to its end, or an exception is
    raised; the ledger is the one reached so far in both cases. *)
Inductive attempt :=
| Completed (L : Ledger)
| Raised (L : Ledger).

(** The body of [for row in reader:] for one row. *)
Definition load_row (row : list string) (L : Ledger) : attempt :=
  if decide (length row < 4)%nat then Completed L
  else
    match row with
    | [rec_date; rec_cat; rec_amt; rec_desc] =>
      match float_of_string rec_amt with
      | None => Raised L
      | Some rec_amt =>
        Completed
          {| expenses :=
               match expenses L !! rec_cat with
               | Some total => <[rec_cat := total + rec_amt]> (expenses L)
               | None => <[rec_cat := rec_amt]> (expenses L)
               end;
             expense_history :=
               expense_history L ++ [Rec rec_date rec_cat rec_amt rec_desc];
             budgets := budgets L |}
      end
    | _ => Raised L
    end.

Fixpoint load_rows (rows : list (list string)) (L : Ledger) : attempt :=
  match rows with
  | [] => Completed L
  | row :: rows =>
    match load_row row L with
    | Completed L' => load_rows rows L'
    | Raised L' => Raised L'
    end
  end.

(** What [load_data_from_file] printed, if anything. *)
Inductive load_status := NoPreviousData | Loaded | ErrorLoading.

Definition load_data_from_file (fs : files) (L : Ledger) : Ledger * load_status :=
  match record_file fs with
  | None => (L, NoPreviousData)
  | Some rows =>
    (* [next(reader, None)] drops the header line, if there is one *)
    match load_rows (tail rows) L with
    | Raised L' => (L', ErrorLoading)
    | Completed L' =>
      match meta_file fs with
      | None => (L', Loaded)
      | Some meta =>
        ({| expenses := default ∅ (meta_expenses meta) ∪ expenses L';
            expense_history := expense_history L';
            budgets := default ∅ (meta_budgets meta) ∪ budgets L' |},
         Loaded)
      end
    end
  end.

(** * Vocabulary of the properties *)

(** ** Amounts and sums *)

(** The amount argument is not numeric, or is numeric and not positive. *)
Definition invalid_amount (amount : pyarg) : Prop :=
  match float amount with
  | None => True
  | Some a => a ≤ 0
  end.

(** The sum of the amounts of the records of one category. *)
Definition category_sum (c : string) (h : list record) : Z :=
  foldr Z.add 0 (rec_amt <$> filter (λ r, rec_cat r = c) h).

(** ** Runs of the menu *)

(** The mutating operations of the menu, load apart. *)
Inductive op :=
| Add (today category : string) (amount : pyarg) (description : string)
| SetBudget (category : string) (amount : pyarg)
| ResetAll.

Definition step (L : Ledger) (o : op) : Ledger :=
  match o with
  | Add today category amount description =>
    (add_expense today category amount description L).1
  | SetBudget category amount => (set_budget category amount L).1
  | ResetAll => remove_all_expenses L
  end.

Definition run (ops : list op) (L : Ledger) : Ledger := fold_left step ops L.

(** The ledgers the program can be in: the initial one, and what the
    operations and a load of any two files make of a ledger it can be in. *)
Inductive reachable : Ledger → Prop :=
| reach_initial : reachable initial_ledger
| reach_step L o : reachable L → reachable (step L o)
| reach_load L fs : reachable L → reachable (load_data_from_file fs L).1.

(** ** Invariants *)

(** The totals are exactly the per-category sums of the history, over the
    default categories. *)
Definition in_sync (L : Ledger) : Prop :=
  ∀ c, expenses L !! c
       = if decide (c ∈ DEFAULT_CATEGORIES)
         then Some (category_sum c (expense_history L)) else None.

(** The constraints of the data model on a ledger: the default categories
    are categories of the ledger, and every record is filed under a category
    of the ledger. *)
Definition well_formed (L : Ledger) : Prop :=
  (∀ c, c ∈ DEFAULT_CATEGORIES → is_Some (expenses L !! c)) ∧
  (∀ r, r ∈ expense_history L → is_Some (expenses L !! rec_cat r)).

(** ** Filters and dates *)

(** Dates are texts in the format [%Y-%m-%d]; the source compares them as
    texts, so the order on dates is the order of Python on [str]. *)
Definition date_le (d1 d2 : string) : Prop := String.leb d1 d2.

(** An optional filter constrains a record when it is supplied, that is,
    given and not the empty text; [None] and the empty text both stand for
    "no filter". *)
Definition when_supplied (o : option string) (P : string → Prop) : Prop :=
  match o with
  | Some s => s ≠ ""%string → P s
  | None => True
  end.

#[global] Instance when_supplied_dec o P `{∀ s, Decision (P s)} :
  Decision (when_supplied o P).
Proof. destruct o; apply _. Defined.

(** The record satisfies every supplied filter. *)
Definition matches (filter_category start_date end_date : option string)
    (r : record) : Prop :=
  when_supplied filter_category (λ c, rec_cat r = c) ∧
  when_supplied start_date (λ d, date_le d (rec_date r)) ∧
  when_supplied end_date (λ d, date_le (rec_date r) d).

#[global] Instance matches_dec fc sd ed r : Decision (matches fc sd ed r).
Proof. unfold matches, date_le. apply _. Defined.

(** The decimal digit [n], for [n < 10]. *)
Definition digit (n : nat) : Ascii.ascii := Ascii.ascii_of_nat (48 + n).

(** [n] written with exactly [width] decimal digits, leading zeros
    included. *)
Fixpoint digits (width n : nat) : string :=
  match width with
  | O => ""
  | S w => String (digit (n / 10 ^ w)) (digits w (n mod 10 ^ w))
  end.

(** A calendar date, and its text in [DATE_FORMAT]. *)
Record date := mkDate { year : nat; month : nat; day : nat }.

Definition strftime (d : date) : string :=
  digits 4 (year d) +:+ "-" +:+ digits 2 (month d) +:+ "-" +:+ digits 2 (day d).

(** The fields of the date fit the widths of the format. *)
Definition fits_format (d : date) : Prop :=
  (year d < 10 ^ 4 ∧ month d < 10 ^ 2 ∧ day d < 10 ^ 2)%nat.

(** The calendar order: by year, then month, then day. *)
Definition calendar_compare (d1 d2 : date) : comparison :=
  match Nat.compare (year d1) (year d2) with
  | Eq => match Nat.compare (month d1) (month d2) with
          | Eq => Nat.compare (day d1) (day d2)
          | c => c
          end
  | c => c
  end.

(** ** Loading *)

(** The ledger an attempt ends with, whether it completed or raised. *)
Definition ledger_of (a : attempt) : Ledger :=
  match a with
  | Completed L => L
  | Raised L => L
  end.


(** ** Ledgers and files of the examples *)

(** The totals of the worked example of the highest spending categories. *)
Definition example_totals : Ledger :=
  {| expenses := <["Food" := 50]> (<["Transportation" := 50]>
                   (<["Entertainment" := 10]> ∅));
     expense_history := [];
     budgets := ∅ |}.


(** A file with three data rows: the second has an amount that is not a
    number, the first and the third are well formed. *)
Definition file_with_bad_amount : files :=
  {| record_file :=
       Some [header;
             ["2024-01-01"; "Food"; "10"; "a"];
             ["2024-01-02"; "Food"; "abc"; "b"];
             ["2024-01-03"; "Other"; "5"; "c"]]%string;
     meta_file := None |}.

(** * The summaries, the search and the menu *)

(** ** Text built-ins

    Texts are taken to be ASCII: [strip], [lower], [isdigit] and [int] are
    the built-ins of [str] on such texts. *)

(** The characters [str.strip()] removes. *)
Definition is_whitespace (a : Ascii.ascii) : bool :=
  Ascii.is_space a
  || ((28 <=? Ascii.nat_of_ascii a)%nat && (Ascii.nat_of_ascii a <=? 31)%nat).

Fixpoint lstrip (s : string) : string :=
  match s with
  | String a s' => if is_whitespace a then lstrip s' else s
  | EmptyString => EmptyString
  end.

Definition strip (s : string) : string :=
  String.rev (lstrip (String.rev (lstrip s))).

Definition lower_char (a : Ascii.ascii) : Ascii.ascii :=
  let n := Ascii.nat_of_ascii a in
  if ((65 <=? n) && (n <=? 90))%nat then Ascii.ascii_of_nat (n + 32) else a.

Fixpoint lower (s : string) : string :=
  match s with
  | EmptyString => EmptyString
  | String a s' => String (lower_char a) (lower s')
  end.

Definition is_digit (a : Ascii.ascii) : bool :=
  ((48 <=? Ascii.nat_of_ascii a) && (Ascii.nat_of_ascii a <=? 57))%nat.

Fixpoint all_digits (s : string) : bool :=
  match s with
  | EmptyString => true
  | String a s' => is_digit a && all_digits s'
  end.

(** [s.isdigit()]: every character is a digit and there is at least one. *)
Definition isdigit (s : string) : bool :=
  negb (String.eqb s "") && all_digits s.

Fixpoint int_from (acc : Z) (s : string) : Z :=
  match s with
  | EmptyString => acc
  | String a s' => int_from (10 * acc + (Z.of_nat (Ascii.nat_of_ascii a) - 48)) s'
  end.

(** [int(s)] for a text of decimal digits. *)
Definition int (s : string) : Z := int_from 0 s.

(** [sub in s]: the text [sub] occurs in [s]. *)
Fixpoint contains (sub s : string) : bool :=
  String.prefix sub s
  || match s with
     | EmptyString => false
     | String _ s' => contains sub s'
     end.

(** ** The search *)

(** [search_expenses]: the records it prints; it prints "No matching expenses
    found." when there is none. *)
Definition search_expenses (keyword : string) (L : Ledger) : list record :=
  fold_left
    (λ found rec,
       if contains (lower keyword) (lower (rec_desc rec))
       then found ++ [rec] else found)
    (expense_history L) [].

(** ** Summaries *)

(** The two operations of [datetime] the summaries use are parameters of
    their model: [strptime] with [DATE_FORMAT], where [None] is
    [ValueError], and [isocalendar], which gives the ISO year, the ISO week
    and the weekday. *)
Class Strptime := strptime : string → option date.






(** ** The menu *)

Definition get_category_from_input (user_input : string)
    (categories : list string) : option string :=
  let user_input := strip user_input in
  let by_name :=
    find (λ cat, bool_decide (lower user_input = lower cat)) categories in
  if isdigit user_input then
    let idx := int user_input - 1 in
    if (0 <=? idx) && (idx <? Z.of_nat (length categories))
    then categories !! Z.to_nat idx
    else by_name
  else by_name.

(** ** Vocabulary of the further properties *)


(** The text [sub] occurs in the text [s]. *)
Definition occurs_in (sub s : string) : Prop :=
  ∃ pre post, s = pre +:+ sub +:+ post.

#[global] Instance occurs_in_dec sub s : Decision (occurs_in sub s).
Proof.
  assert (Hprefix : ∀ sub s, String.prefix sub s = true ↔ ∃ post, s = sub +:+ post).
  { clear. intros sub. induction sub as [|a sub IH]; intros s.
    - split; [|by destruct s]. intros _. by exists s.
    - destruct s as [|b s]; cbn [String.prefix].
      + split; [done|]. by intros [post [=]].
      + destruct (Ascii.ascii_dec a b) as [->|Hne].
        * rewrite IH. split; intros [post Hpost]; exists post.
          -- cbn. by rewrite Hpost.
          -- cbn in Hpost. by injection Hpost.
        * split; [done|]. intros [post Hpost].
          cbn in Hpost. by injection Hpost as <-. }
  assert (Hspec : contains sub s = true ↔ occurs_in sub s).
  { unfold occurs_in. induction s as [|a s IH]; cbn [contains].
    - rewrite orb_false_r, Hprefix. split.
      + intros [post Hpost]. by exists ""%string, post.
      + intros ([|b pre] & post & Hs); [by exists post | done].
    - rewrite orb_true_iff, Hprefix, IH. split.
      + intros [[post Hpost]|(pre & post & Hs)].
        * by exists ""%string, post.
        * exists (String a pre), post. cbn. by rewrite Hs.
      + intros ([|b pre] & post & Hs).
        * left. by exists post.
        * right. cbn in Hs. injection Hs as _ Hs. eauto. }
  destruct (contains sub s); [left | right].
  - by apply Hspec.
  - intros Hocc. by apply Hspec in Hocc.
Defined.

(** A ledger for the examples of the search: three records, two of which
    mention a lunch. *)
Definition three_meals : Ledger :=
  {| expenses := ∅;
     expense_history := [Rec "2024-01-01" "Food" 10 "lunch at work, again";
                         Rec "2024-01-02" "Food" 7 "dinner";
                         Rec "2024-01-03" "Food" 5 "LUNCH"];
     budgets := ∅ |}.

(** [s.isascii()]: every character of the text is below 128.  On such
    texts [strip], [lower], [isdigit] and [int] above are the built-ins of
    [str]; [int] raises on more than 4300 digits. *)
Fixpoint isascii (s : string) : bool :=
  match s with
  | EmptyString => true
  | String a s' => (Ascii.nat_of_ascii a <? 128)%nat && isascii s'
  end.

(** The date of every record can be read. *)
Definition dates_parse `{Strptime} (h : list record) : Prop :=
  Forall (λ r, is_Some (strptime (rec_date r))) h.

#[global] Instance dates_parse_dec `{Strptime} h : Decision (dates_parse h).
Proof. unfold dates_parse. apply _. Defined.





(** The dates the clock showed at the [add_expense] calls of a run, in the
    order of the calls. *)
Definition clock_readings (ops : list op) : list string :=
  omap (λ o, match o with
             | Add today _ _ _ => Some today
             | _ => None
             end) ops.

(** * The ledger over binary64 amounts

    The development above computes with the amounts exactly.  This module is
    the same code with the amounts as the floats of Python, IEEE binary64
    ([PrimFloat]): sums round, and NaN and the infinities are amounts like
    the others.  The built-ins [float()] and [str()] on texts are parameters
    ([PyFloatText]): what is proved holds for every pair of functions, the
    real ones included.  Dictionaries keep the order in which keys were
    inserted, as [dict] does.  The record file is the rows [csv.writer] was
    given; [reader] gives them back as [csv.reader] does from a file opened
    without [newline='']. *)

Module Binary64.
Import Floats.

(** ** Dictionaries in insertion order *)

Definition dict (V : Type) : Type := list (string * V).

(** [d.get(k)], and [k in d] when it is [Some]. *)
Fixpoint dict_get {V} (d : dict V) (k : string) : option V :=
  match d with
  | [] => None
  | (k', v) :: d' => if String.eqb k' k then Some v else dict_get d' k
  end.

(** [d[k] = v]: a present key keeps its place, a new key goes last. *)
Fixpoint dict_set {V} (d : dict V) (k : string) (v : V) : dict V :=
  match d with
  | [] => [(k, v)]
  | (k', v') :: d' =>
    if String.eqb k' k then (k', v) :: d' else (k', v') :: dict_set d' k v
  end.

Definition dict_keys {V} (d : dict V) : list string := d.*1.

Definition dict_values {V} (d : dict V) : list V := d.*2.

(** [d.update(other)]. *)
Definition dict_update {V} (d other : dict V) : dict V :=
  fold_left (λ d item, dict_set d item.1 item.2) other d.

(** ** Data model *)

Record record := Rec {
  rec_date : string;
  rec_cat : string;
  rec_amt : PrimFloat.float;
  rec_desc : string
}.

Record Ledger := mkLedger {
  expenses : dict PrimFloat.float;
  expense_history : list record;
  budgets : dict (option PrimFloat.float)
}.

Definition initial_ledger : Ledger :=
  {| expenses := (λ cat, (cat, 0%float)) <$> DEFAULT_CATEGORIES;
     expense_history := [];
     budgets := (λ cat, (cat, None)) <$> DEFAULT_CATEGORIES |}.

(** [float(s)] for a text [s], where [None] is [ValueError], and [str(x)]
    for a float [x]. *)
Class PyFloatText := {
  float_of_string : string → option PrimFloat.float;
  str : PrimFloat.float → string
}.

Inductive pyarg :=
| PStr (s : string)
| PFloat (x : PrimFloat.float).

Definition float `{PyFloatText} (amount : pyarg) : option PrimFloat.float :=
  match amount with
  | PStr s => float_of_string s
  | PFloat x => Some x
  end.

Inductive message :=
| InvalidCategoryChoose        (* "Invalid category. Please choose from the list." *)
| AmountMustBePositive         (* "Amount must be positive." *)
| InvalidAmountEnterNumber     (* "Invalid amount. Please enter a number." *)
| ExpenseAdded (amount : PrimFloat.float) (category : string)
| BudgetInvalidCategory        (* "Invalid category." *)
| BudgetMustBePositive         (* "Budget must be positive." *)
| BudgetInvalidAmount          (* "Invalid amount." *)
| BudgetSet (category : string) (amount : PrimFloat.float).

Definition error_kind (m : message) : option ErrorKind :=
  match m with
  | InvalidCategoryChoose | BudgetInvalidCategory => Some InvalidCategory
  | AmountMustBePositive | InvalidAmountEnterNumber
  | BudgetMustBePositive | BudgetInvalidAmount => Some InvalidAmount
  | ExpenseAdded _ _ | BudgetSet _ _ => None
  end.

(** ** Data operations *)

Definition add_expense `{PyFloatText} (today : string) (category : string)
    (amount : pyarg) (description : string) (L : Ledger) : Ledger * message :=
  match dict_get (expenses L) category with
  | None => (L, InvalidCategoryChoose)
  | Some total =>
    match float amount with
    | None => (L, InvalidAmountEnterNumber)
    | Some amount =>
      if (amount <=? 0)%float then (L, AmountMustBePositive)
      else
        let record := Rec today category amount description in
        ({| expenses := dict_set (expenses L) category (total + amount)%float;
            expense_history := expense_history L ++ [record];
            budgets := budgets L |},
         ExpenseAdded amount category)
    end
  end.

(** [sum(expenses.values())], which adds the values from left to right,
    starting from zero. *)
Definition calculate_total_expenses (L : Ledger) : PrimFloat.float :=
  fold_left PrimFloat.add (dict_values (expenses L)) 0%float.

Definition set_budget `{PyFloatText} (category : string) (amount : pyarg)
    (L : Ledger) : Ledger * message :=
  match dict_get (budgets L) category with
  | None => (L, BudgetInvalidCategory)
  | Some _ =>
    match float amount with
    | None => (L, BudgetInvalidAmount)
    | Some amount =>
      if (amount <=? 0)%float then (L, BudgetMustBePositive)
      else
        ({| expenses := expenses L;
            expense_history := expense_history L;
            budgets := dict_set (budgets L) category (Some amount) |},
         BudgetSet category amount)
    end
  end.

Definition remove_all_expenses (L : Ledger) : Ledger :=
  {| expenses := (λ item, (item.1, 0%float)) <$> expenses L;
     expense_history := [];
     budgets := budgets L |}.

(** One row of [view_budgets]; [None] is the dash. *)
Record budget_row := BudgetRow {
  row_cat : string;
  row_budget : option PrimFloat.float;
  row_spent : PrimFloat.float;
  row_remaining : option PrimFloat.float
}.

(** [view_budgets]: [bud] is false for [None] and for a zero. *)
Definition view_budgets (L : Ledger) : list budget_row :=
  (λ '(cat, bud),
     let spent := default 0%float (dict_get (expenses L) cat) in
     let rem := (λ b, (b - spent)%float) <$> bud in
     let shown := match bud with
                  | Some b => negb (b =? 0)%float
                  | None => false
                  end in
     BudgetRow cat (if shown then bud else None) spent
       (if shown then rem else None))
  <$> budgets L.

(** ** Persistence *)

Record meta := mkMeta {
  meta_expenses : option (dict PrimFloat.float);
  meta_budgets : option (dict (option PrimFloat.float))
}.

Record files := mkFiles {
  record_file : option (list (list string));
  meta_file : option meta
}.

Definition writerow `{PyFloatText} (rec : record) : list string :=
  [rec_date rec; rec_cat rec; str (rec_amt rec); rec_desc rec].

Definition save_data_to_file `{PyFloatText} (L : Ledger) : files :=
  {| record_file := Some (header :: (writerow <$> expense_history L));
     meta_file := Some {| meta_expenses := Some (expenses L);
                          meta_budgets := Some (budgets L) |} |}.

Definition CR : Ascii.ascii := Ascii.ascii_of_nat 13.
Definition LF : Ascii.ascii := Ascii.ascii_of_nat 10.

(** The translation of a text read from a file opened without a [newline]
    argument: a carriage return, with the line feed that follows it if there
    is one, becomes a line feed. *)
Fixpoint universal_newlines (s : string) : string :=
  match s with
  | EmptyString => EmptyString
  | String c s' =>
    if Ascii.eqb c CR then
      String LF
        match s' with
        | String c' s'' =>
          if Ascii.eqb c' LF then universal_newlines s''
          else universal_newlines s'
        | EmptyString => EmptyString
        end
    else String c (universal_newlines s')
  end.

(** The rows [csv.reader] yields for the rows [csv.writer] wrote: the
    writer quotes the fields that hold a line break and [save_data_to_file]
    opens the file with [newline=''], so they reach the file as they are;
    [load_data_from_file] opens it without, so they come back translated. *)
Definition reader (rows : list (list string)) : list (list string) :=
  (λ row : list string, universal_newlines <$> row) <$> rows.

Inductive attempt :=
| Completed (L : Ledger)
| Raised (L : Ledger).

Definition ledger_of (a : attempt) : Ledger :=
  match a with
  | Completed L => L
  | Raised L => L
  end.

Definition load_row `{PyFloatText} (row : list string) (L : Ledger) : attempt :=
  if decide (length row < 4)%nat then Completed L
  else
    match row with
    | [rec_date; rec_cat; rec_amt; rec_desc] =>
      match float_of_string rec_amt with
      | None => Raised L
      | Some rec_amt =>
        Completed
          {| expenses :=
               match dict_get (expenses L) rec_cat with
               | Some total => dict_set (expenses L) rec_cat (total + rec_amt)%float
               | None => dict_set (expenses L) rec_cat rec_amt
               end;
             expense_history :=
               expense_history L ++ [Rec rec_date rec_cat rec_amt rec_desc];
             budgets := budgets L |}
      end
    | _ => Raised L
    end.

Fixpoint load_rows `{PyFloatText} (rows : list (list string)) (L : Ledger)
    : attempt :=
  match rows with
  | [] => Completed L
  | row :: rows =>
    match load_row row L with
    | Completed L' => load_rows rows L'
    | Raised L' => Raised L'
    end
  end.

Definition load_data_from_file `{PyFloatText} (fs : files) (L : Ledger)
    : Ledger * load_status :=
  match record_file fs with
  | None => (L, NoPreviousData)
  | Some rows =>
    match load_rows (tail (reader rows)) L with
    | Raised L' => (L', ErrorLoading)
    | Completed L' =>
      match meta_file fs with
      | None => (L', Loaded)
      | Some meta =>
        ({| expenses := dict_update (expenses L') (default [] (meta_expenses meta));
            expense_history := expense_history L';
            budgets := dict_update (budgets L') (default [] (meta_budgets meta)) |},
         Loaded)
      end
    end
  end.

(** ** Vocabulary of the properties *)

(** The amount argument is not numeric, or is numeric and at most zero. *)
Definition invalid_amount `{PyFloatText} (amount : pyarg) : Prop :=
  match float amount with
  | None => True
  | Some a => (a <=? 0)%float = true
  end.

(** The sum, from left to right and from zero, of the amounts of the
    records of one category. *)
Definition category_sum (c : string) (h : list record) : PrimFloat.float :=
  fold_left PrimFloat.add (rec_amt <$> filter (λ r, rec_cat r = c) h) 0%float.

Inductive op :=
| Add (today category : string) (amount : pyarg) (description : string)
| SetBudget (category : string) (amount : pyarg)
| ResetAll.

Definition step `{PyFloatText} (L : Ledger) (o : op) : Ledger :=
  match o with
  | Add today category amount description =>
    (add_expense today category amount description L).1
  | SetBudget category amount => (set_budget category amount L).1
  | ResetAll => remove_all_expenses L
  end.

Definition run `{PyFloatText} (ops : list op) (L : Ledger) : Ledger :=
  fold_left step ops L.

Definition too_short (row : list string) : Prop := (length row < 4)%nat.

Definition amount_not_numeric `{PyFloatText} (row : list string) : Prop :=
  ∃ rec_date rec_cat rec_amt rec_desc,
    row = [rec_date; rec_cat; rec_amt; rec_desc] ∧
    float_of_string rec_amt = None.





(** The totals are the float sums, in the order of the history, of the
    amounts of the records of each category. *)
Definition totals_are_sums (L : Ledger) : Prop :=
  ∀ c, dict_get (expenses L) c
       = if decide (c ∈ DEFAULT_CATEGORIES)
         then Some (category_sum c (expense_history L)) else None.

(** ** The texts and amounts of the examples *)

(** The values of [float()] and of [str()] on the texts and the amounts the
    examples use; it stands for the two built-ins on these only. *)
Definition examples_float_of_string (s : string) : option PrimFloat.float :=
  if String.eqb s "10" then Some 10%float
  else if String.eqb s "10.0" then Some 10%float
  else if String.eqb s "5" then Some 5%float
  else if String.eqb s "5.0" then Some 5%float
  else if String.eqb s "-5" then Some (-5)%float
  else if String.eqb s "1" then Some 1%float
  else if String.eqb s "1e16" then Some 1e16%float
  else if String.eqb s "nan" then Some nan
  else None.

Definition examples_str (x : PrimFloat.float) : string :=
  if (x =? 10)%float then "10.0"
  else if (x =? 5)%float then "5.0"
  else if (x =? 1)%float then "1.0"
  else if (x =? 1e16)%float then "1e+16"
  else if PrimFloat.is_nan x then "nan"
  else "0.0".

Definition examples_text : PyFloatText :=
  {| float_of_string := examples_float_of_string; str := examples_str |}.

(** A ledger whose total for Food is 1e16, a ledger with one expense of 10
    on Food whose description has a carriage return in it, and a file whose
    second data row has an amount that is not a number. *)
Definition big_food : Ledger :=
  (@add_expense examples_text "2024-01-01" "Food" (PStr "1e16") "car"
     initial_ledger).1.

Definition file_with_bad_amount : files :=
  {| record_file :=
       Some [header;
             ["2024-01-01"; "Food"; "10"; "a"];
             ["2024-01-02"; "Food"; "abc"; "b"];
             ["2024-01-03"; "Other"; "5"; "c"]]%string;
     meta_file := None |}.

(** A description with a carriage return in it: the letters a and b on
    either side. *)
Definition two_lines_cr : string := "a" +:+ String CR "b".

Definition two_lines_lf : string := "a" +:+ String LF "b".

Definition lunch_cr : Ledger :=
  (@add_expense examples_text "2024-01-01" "Food" (PStr "10") two_lines_cr
     initial_ledger).1.


End Binary64.

(** * Properties *)

(** ** Sums over the totals *)

Lemma sum_values_empty : sum_values ∅ = 0.
Proof. unfold sum_values. by rewrite map_fold_empty. Qed.

Lemma sum_values_insert_fresh (e : gmap string Z) c v :
  e !! c = None → sum_values (<[c := v]> e) = sum_values e + v.
Proof.
  intros Hc. unfold sum_values.
  rewrite map_fold_insert_L; [done | intros; lia | done].
Qed.

Lemma sum_values_zero (e : gmap string Z) :
  sum_values ((λ _, 0) <$> e) = 0.
Proof.
  induction e as [|c v e Hc IH] using map_ind.
  - by rewrite fmap_empty, sum_values_empty.
  - rewrite fmap_insert, sum_values_insert_fresh, IH; [done|].
    by rewrite lookup_fmap, Hc.
Qed.

(** ** Amounts as text *)


(** ** Adding an expense *)

(** C10. [add_expense] and [set_budget] look the category up before they
    read the amount: with a category that is not a key (of the totals for
    [add_expense], of the budgets for [set_budget]) and an amount that is not
    numeric or not positive, the call reports [InvalidCategory] and the
    ledger is unchanged. *)
Theorem category_checked_before_amount today c x d L :
  invalid_amount x →
  (expenses L !! c = None →
     (add_expense today c x d L).1 = L ∧
     error_kind (add_expense today c x d L).2 = Some InvalidCategory) ∧
  (budgets L !! c = None →
     (set_budget c x L).1 = L ∧
     error_kind (set_budget c x L).2 = Some InvalidCategory).
Proof.
  intros _. split; intros Hc.
  - unfold add_expense. by rewrite Hc.
  - unfold set_budget. by rewrite Hc.
Qed.

Lemma category_checked_before_amount_witness :
  invalid_amount (PStr "abc") ∧
  expenses initial_ledger !! "Rent" = None ∧
  budgets initial_ledger !! "Rent" = None ∧
  (add_expense "2024-01-01" "Rent" (PStr "abc") "" initial_ledger).1
    = initial_ledger ∧
  error_kind (add_expense "2024-01-01" "Rent" (PStr "abc") "" initial_ledger).2
    = Some InvalidCategory ∧
  (set_budget "Rent" (PStr "abc") initial_ledger).1 = initial_ledger ∧
  error_kind (set_budget "Rent" (PStr "abc") initial_ledger).2
    = Some InvalidCategory.
Proof.
  assert (Hx : invalid_amount (PStr "abc")) by (vm_compute; exact I).
  assert (He : expenses initial_ledger !! "Rent" = None)
    by (vm_compute; reflexivity).
  assert (Hb : budgets initial_ledger !! "Rent" = None)
    by (vm_compute; reflexivity).
  destruct (category_checked_before_amount "2024-01-01" "Rent" (PStr "abc") ""
              initial_ledger Hx) as [Hadd Hset].
  destruct (Hadd He) as [? ?]. destruct (Hset Hb) as [? ?].
  repeat split; assumption.
Defined.

(** ** Removing all expenses *)

(** C7. [remove_all_expenses] sets every total to zero and keeps the
    categories, empties the history, and leaves the budgets as they were; so
    the grand total is 0 and the history view is empty, whatever the ledger
    was. *)
Theorem remove_all_expenses_resets L :
  (∀ c, expenses (remove_all_expenses L) !! c
        = (λ _, 0) <$> expenses L !! c) ∧
  dom (expenses (remove_all_expenses L)) = dom (expenses L) ∧
  calculate_total_expenses (remove_all_expenses L) = 0 ∧
  expense_history (remove_all_expenses L) = [] ∧
  view_expense_history None None None (remove_all_expenses L) = [] ∧
  budgets (remove_all_expenses L) = budgets L.
Proof.
  unfold remove_all_expenses, calculate_total_expenses; cbn.
  repeat split.
  - intros c. apply lookup_fmap.
  - apply dom_fmap_L.
  - apply sum_values_zero.
Qed.

(** ** Totals and history stay in step *)

Lemma category_sum_nil c : category_sum c [] = 0.
Proof. reflexivity. Qed.

Lemma in_sync_initial : in_sync initial_ledger.
Proof.
  intros c. cbn [expense_history initial_ledger expenses].
  rewrite category_sum_nil.
  destruct (decide (c ∈ DEFAULT_CATEGORIES)) as [Hin|Hout].
  - apply elem_of_list_to_map_1'.
    + intros y Hy. apply list_elem_of_fmap in Hy as (c' & [= -> ->] & _). done.
    + apply list_elem_of_fmap. by exists c.
  - apply not_elem_of_list_to_map_1. rewrite <- list_fmap_compose.
    by rewrite list_fmap_id.
Qed.

(** ** The highest spending categories *)




Example find_highest_on_example :
  ∃ top_cats,
    find_highest_spending_category example_totals = Some (Some top_cats, 50) ∧
    top_cats ≡ₚ ["Food"; "Transportation"].
Proof.
  eexists. split; [vm_compute; reflexivity|].
  reflexivity.
Qed.

Example find_highest_on_initial :
  find_highest_spending_category initial_ledger = Some (None, 0).
Proof. vm_compute. reflexivity. Qed.

(** ** The history view *)

Lemma ltb_not_leb s1 s2 : String.ltb s1 s2 = negb (String.leb s2 s1).
Proof.
  unfold String.ltb, String.leb. rewrite (String.compare_antisym s2 s1).
  by destruct (String.compare s1 s2).
Qed.

(** The condition under which the loop body reaches [filtered.append]. *)
Lemma kept_iff_matches fc sd ed r :
  matches fc sd ed r ↔
  truthy fc && negb (String.eqb (rec_cat r) (default ""%string fc)) = false ∧
  truthy sd && String.ltb (rec_date r) (default ""%string sd) = false ∧
  truthy ed && String.ltb (default ""%string ed) (rec_date r) = false.
Proof.
  unfold matches, when_supplied, date_le.
  destruct fc as [c|], sd as [d1|], ed as [d2|]; cbn;
    repeat match goal with
      | |- context [String.eqb ?a ""] => destruct (String.eqb_spec a "")
      | |- context [String.eqb (rec_cat r) ?a] =>
          destruct (String.eqb_spec (rec_cat r) a)
      end; cbn; rewrite ?ltb_not_leb;
    repeat match goal with
      | |- context [String.leb ?a ?b] => destruct (String.leb a b)
      end; cbn; intuition (done || congruence).
Qed.

Lemma view_expense_history_acc fc sd ed (h acc : list record) :
  fold_left
    (λ filtered rec,
       if truthy fc && negb (String.eqb (rec_cat rec) (default ""%string fc))
       then filtered
       else if truthy sd && String.ltb (rec_date rec) (default ""%string sd)
       then filtered
       else if truthy ed && String.ltb (default ""%string ed) (rec_date rec)
       then filtered
       else filtered ++ [rec]) h acc
  = acc ++ filter (matches fc sd ed) h.
Proof.
  revert acc. induction h as [|r h IH]; intros acc; cbn [fold_left].
  - by rewrite filter_nil, app_nil_r.
  - rewrite IH, filter_cons. pose proof (kept_iff_matches fc sd ed r) as Hk.
    destruct (decide (matches fc sd ed r)) as [Hm|Hm].
    + apply Hk in Hm as (-> & -> & ->). by rewrite <- app_assoc.
    + destruct (truthy fc && _); [done|].
      destruct (truthy sd && _); [done|].
      destruct (truthy ed && _); [done|].
      exfalso. apply Hm, Hk. done.
Qed.

(** C9. For every history and every combination of the three optional
    filters, the history view is the history filtered by [matches]: it holds
    exactly the records whose category is the supplied category, whose date
    is not before the supplied start date and not after the supplied end
    date, both bounds included, as often and in the order they have in the
    history; when nothing matches it is the empty list. *)
Theorem view_expense_history_filters fc sd ed L :
  view_expense_history fc sd ed L = filter (matches fc sd ed) (expense_history L) ∧
  view_expense_history fc sd ed L `sublist_of` expense_history L ∧
  (∀ r, r ∈ view_expense_history fc sd ed L
        ↔ r ∈ expense_history L ∧ matches fc sd ed r).
Proof.
  assert (Heq : view_expense_history fc sd ed L
                = filter (matches fc sd ed) (expense_history L)).
  { unfold view_expense_history. by rewrite view_expense_history_acc. }
  rewrite Heq. split; [done|]. split.
  - apply sublist_filter.
  - intros r. rewrite list_elem_of_filter. tauto.
Qed.

(** On dates in [DATE_FORMAT], the order of the texts is the order of the
    calendar: this is what makes the text comparisons of the history view
    comparisons of dates. *)

Lemma compare_digit a b :
  (a < 10)%nat → (b < 10)%nat →
  Ascii.compare (digit a) (digit b) = Nat.compare a b.
Proof.
  intros Ha Hb.
  do 10 (destruct a as [|a]; [do 10 (destruct b as [|b]; [reflexivity|]); lia|]).
  lia.
Qed.

Lemma compare_digits w n n' :
  (n < 10 ^ w)%nat → (n' < 10 ^ w)%nat →
  String.compare (digits w n) (digits w n') = Nat.compare n n'.
Proof.
  revert n n'. induction w as [|w IH]; intros n n' Hn Hn'.
  - cbn in *. by replace n with 0%nat by lia; replace n' with 0%nat by lia.
  - cbn [digits String.compare].
    assert (Hpos : (0 < 10 ^ w)%nat)
      by (apply Nat.neq_0_lt_0, Nat.pow_nonzero; lia).
    rewrite Nat.pow_succ_r' in Hn, Hn'.
    pose proof (Nat.div_mod_eq n (10 ^ w)) as Hq.
    pose proof (Nat.div_mod_eq n' (10 ^ w)) as Hq'.
    pose proof (Nat.mod_upper_bound n (10 ^ w)) as Hr.
    pose proof (Nat.mod_upper_bound n' (10 ^ w)) as Hr'.
    assert (Hd : (n / 10 ^ w < 10)%nat)
      by (apply Nat.Div0.div_lt_upper_bound; lia).
    assert (Hd' : (n' / 10 ^ w < 10)%nat)
      by (apply Nat.Div0.div_lt_upper_bound; lia).
    rewrite compare_digit, IH by lia.
    remember (n / 10 ^ w)%nat as q eqn:Eq.
    remember (n' / 10 ^ w)%nat as q' eqn:Eq'.
    remember (n mod 10 ^ w)%nat as r eqn:Er.
    remember (n' mod 10 ^ w)%nat as r' eqn:Er'.
    remember (10 ^ w)%nat as p eqn:Ep. clear Eq Eq' Er Er' Ep IH.
    destruct (Nat.compare_spec q q') as [->|Hlt|Hgt].
    + subst n n'. destruct (Nat.compare_spec r r'); symmetry.
      * apply Nat.compare_eq_iff. lia.
      * apply Nat.compare_lt_iff. lia.
      * apply Nat.compare_gt_iff. lia.
    + symmetry. apply Nat.compare_lt_iff. nia.
    + symmetry. apply Nat.compare_gt_iff. nia.
Qed.

Lemma compare_append a a' b b' :
  String.length a = String.length a' →
  String.compare (a +:+ b) (a' +:+ b')
  = match String.compare a a' with
    | Eq => String.compare b b'
    | c => c
    end.
Proof.
  revert a'. induction a as [|c a IH]; intros [|c' a'] Hlen; try done.
  change (String.compare (String c a +:+ b) (String c' a' +:+ b'))
    with (match Ascii.compare c c' with
          | Eq => String.compare (a +:+ b) (a' +:+ b')
          | c => c
          end).
  cbn [String.compare].
  destruct (Ascii.compare c c'); [|done..]. apply IH. by injection Hlen.
Qed.

Lemma length_digits w n : String.length (digits w n) = w.
Proof.
  revert n. induction w as [|w IH]; intros n; cbn; [done|]. by rewrite IH.
Qed.

Lemma compare_strftime d1 d2 :
  fits_format d1 → fits_format d2 →
  String.compare (strftime d1) (strftime d2) = calendar_compare d1 d2.
Proof.
  intros (Hy1 & Hm1 & Hd1) (Hy2 & Hm2 & Hd2). unfold strftime, calendar_compare.
  rewrite compare_append by (by rewrite !length_digits).
  rewrite compare_digits by done.
  destruct (year d1 ?= year d2)%nat; [|done..].
  rewrite (compare_append "-" "-") by done.
  change (String.compare "-" "-") with Eq. cbv iota.
  rewrite compare_append by (by rewrite !length_digits).
  rewrite compare_digits by done.
  destruct (month d1 ?= month d2)%nat; [|done..].
  rewrite (compare_append "-" "-") by done.
  change (String.compare "-" "-") with Eq. cbv iota.
  by apply compare_digits.
Qed.

Lemma date_le_strftime d1 d2 :
  fits_format d1 → fits_format d2 →
  date_le (strftime d1) (strftime d2) ↔ calendar_compare d1 d2 ≠ Gt.
Proof.
  intros H1 H2. unfold date_le, String.leb. rewrite compare_strftime by done.
  by destruct (calendar_compare d1 d2).
Qed.

Example strftime_example : strftime (mkDate 2024 1 2) = "2024-01-02"%string.
Proof. vm_compute. reflexivity. Qed.

(** The worked example of the history view. *)
Example view_expense_history_food :
  view_expense_history (Some "Food") None None
    {| expenses := ∅;
       expense_history := [Rec "2024-01-01" "Food" 10 "a";
                           Rec "2024-01-02" "Transportation" 5 "b"];
       budgets := ∅ |}
  = [Rec "2024-01-01" "Food" 10 "a"].
Proof. vm_compute. reflexivity. Qed.

Example view_expense_history_bounds_inclusive :
  view_expense_history None (Some "2024-01-02") (Some "2024-01-03")
    {| expenses := ∅;
       expense_history := [Rec "2024-01-01" "Food" 10 "a";
                           Rec "2024-01-02" "Food" 5 "b";
                           Rec "2024-01-03" "Other" 7 "c";
                           Rec "2024-01-04" "Other" 1 "d"];
       budgets := ∅ |}
  = [Rec "2024-01-02" "Food" 5 "b"; Rec "2024-01-03" "Other" 7 "c"].
Proof. vm_compute. reflexivity. Qed.

(** ** Loading what was saved *)




Lemma lookup_initial_expenses c :
  is_Some (expenses initial_ledger !! c) ↔ c ∈ DEFAULT_CATEGORIES.
Proof.
  pose proof (in_sync_initial c) as H. rewrite H.
  destruct (decide (c ∈ DEFAULT_CATEGORIES)); split; eauto; try done.
Qed.

(** Every ledger the program can be in is well formed, whatever the files it
    loaded held. *)

Lemma well_formed_initial : well_formed initial_ledger.
Proof.
  split.
  - intros c. apply lookup_initial_expenses.
  - intros r Hr. by apply elem_of_nil in Hr.
Qed.

Lemma well_formed_step L o : well_formed L → well_formed (step L o).
Proof.
  intros [Hdef Hrec]. destruct o as [today cat x d|cat x|]; cbn.
  - unfold add_expense.
    destruct (expenses L !! cat) as [total|] eqn:Hc; [|done].
    destruct (float x) as [a|]; [|done].
    destruct (a <=? 0); [done|]. split; cbn.
    + intros c Hin. rewrite lookup_insert. case_decide; eauto.
    + intros r [Hr|Hr%list_elem_of_singleton]%elem_of_app.
      * rewrite lookup_insert. case_decide; eauto.
      * subst r. cbn. rewrite lookup_insert_eq. eauto.
  - unfold set_budget.
    destruct (budgets L !! cat); [|done].
    destruct (float x) as [a|]; [|done].
    by destruct (a <=? 0).
  - split; cbn.
    + intros c Hin. rewrite lookup_fmap. by apply fmap_is_Some, Hdef.
    + intros r Hr. by apply elem_of_nil in Hr.
Qed.

Lemma well_formed_load_row row L :
  well_formed L → well_formed (ledger_of (load_row row L)).
Proof.
  intros [Hdef Hrec]. unfold load_row. case_decide; [done|].
  destruct row as [|d [|c [|a [|desc [|]]]]]; try done.
  destruct (float_of_string a) as [amt|]; [|done]. cbn.
  assert (Hkeep : ∀ c', is_Some (expenses L !! c') →
            is_Some (match expenses L !! c with
                     | Some total => <[c := total + amt]> (expenses L)
                     | None => <[c := amt]> (expenses L)
                     end !! c')).
  { intros c' Hc'. destruct (expenses L !! c);
      rewrite lookup_insert; case_decide; eauto. }
  split; cbn.
  - intros c' Hin. by apply Hkeep, Hdef.
  - intros r [Hr|Hr%list_elem_of_singleton]%elem_of_app.
    + by apply Hkeep, Hrec.
    + subst r. cbn. destruct (expenses L !! c); rewrite lookup_insert_eq; eauto.
Qed.

Lemma well_formed_load_rows rows L :
  well_formed L → well_formed (ledger_of (load_rows rows L)).
Proof.
  revert L. induction rows as [|row rows IH]; intros L Hwf; [done|].
  cbn. pose proof (well_formed_load_row row L Hwf) as Hrow.
  destruct (load_row row L); [by apply IH | done].
Qed.

Lemma well_formed_load fs L :
  well_formed L → well_formed (load_data_from_file fs L).1.
Proof.
  intros Hwf. unfold load_data_from_file.
  destruct (record_file fs) as [rows|]; [|done].
  pose proof (well_formed_load_rows (tail rows) L Hwf) as Hrows.
  destruct (load_rows (tail rows) L) as [L'|L']; [|done].
  destruct (meta_file fs) as [m|]; [|done].
  destruct Hrows as [Hdef Hrec]. split; cbn.
  - intros c Hin. apply lookup_union_is_Some. right. by apply Hdef.
  - intros r Hr. apply lookup_union_is_Some. right. by apply Hrec.
Qed.

Lemma reachable_well_formed L : reachable L → well_formed L.
Proof.
  induction 1 as [|L o _ IH|L fs _ IH].
  - apply well_formed_initial.
  - by apply well_formed_step.
  - by apply well_formed_load.
Qed.

(** In particular a ledger the program can be in has categories, so that
    [max] in [find_highest_spending_category] does not raise. *)
Lemma reachable_expenses_nonempty L : reachable L → expenses L ≠ ∅.
Proof.
  intros [Hdef _]%reachable_well_formed Hempty.
  destruct (Hdef "Food"%string) as [v Hv].
  - unfold DEFAULT_CATEGORIES. apply list_elem_of_here.
  - by rewrite Hempty, lookup_empty in Hv.
Qed.

(** ** What load does with the stored totals *)



(** ** Malformed rows *)

(** A short row between two good rows is passed over, and both good rows are
    loaded. *)
Example short_row_skipped :
  expense_history
    (load_data_from_file
       {| record_file :=
            Some [header;
                  ["2024-01-01"; "Food"; "10"; "a"];
                  ["2024-01-02"; "Food"];
                  ["2024-01-03"; "Other"; "5"; "c"]]%string;
          meta_file := None |} initial_ledger).1
  = [Rec "2024-01-01" "Food" 10 "a"; Rec "2024-01-03" "Other" 5 "c"].
Proof. vm_compute. reflexivity. Qed.

(** A row of five fields is not passed over by the length test: unpacking it
    into four names raises, and the load ends there. *)
Example long_row_raises :
  load_row ["2024-01-02"; "Food"; "5"; "b"; "extra"]%string initial_ledger
  = Raised initial_ledger.
Proof. vm_compute. reflexivity. Qed.

(** * Further properties of the module *)

(** ** Budgets *)

Lemma set_budget_frame c x L :
  expenses (set_budget c x L).1 = expenses L ∧
  expense_history (set_budget c x L).1 = expense_history L ∧
  dom (budgets (set_budget c x L).1) = dom (budgets L).
Proof.
  unfold set_budget.
  destruct (budgets L !! c) as [old|] eqn:Hc; [|done].
  destruct (float x) as [a|]; [|done].
  destruct (a <=? 0); [done|]. cbn. repeat split.
  apply dom_insert_lookup_L. eauto.
Qed.

(** ** What a run of the menu keeps *)

Lemma step_dom L o :
  dom (expenses (step L o)) = dom (expenses L) ∧
  dom (budgets (step L o)) = dom (budgets L).
Proof.
  destruct o as [today cat x d|cat x|]; cbn.
  - unfold add_expense.
    destruct (expenses L !! cat) as [total|] eqn:Hc; [|done].
    destruct (float x) as [a|]; [|done].
    destruct (a <=? 0); [done|]. cbn. split; [|done].
    apply dom_insert_lookup_L. eauto.
  - by destruct (set_budget_frame cat x L) as (-> & _ & ?).
  - cbn. split; [apply dom_fmap_L | done].
Qed.

(** X2. No sequence of [add_expense], [set_budget] and
    [remove_all_expenses] calls adds or removes a category: the keys of the
    totals and the keys of the budgets are the same after it as before. *)
Theorem run_keeps_categories ops L :
  dom (expenses (run ops L)) = dom (expenses L) ∧
  dom (budgets (run ops L)) = dom (budgets L).
Proof.
  revert L. induction ops as [|o ops IH]; intros L; [done|].
  change (run (o :: ops) L) with (run ops (step L o)).
  destruct (IH (step L o)) as [-> ->]. apply step_dom.
Qed.

(** ** What a load keeps *)

Lemma load_row_grows row L :
  expense_history L `prefix_of` expense_history (ledger_of (load_row row L)) ∧
  dom (expenses L) ⊆ dom (expenses (ledger_of (load_row row L))) ∧
  budgets (ledger_of (load_row row L)) = budgets L.
Proof.
  unfold load_row. case_decide; [done|].
  destruct row as [|d [|c [|a [|desc [|]]]]]; try done.
  destruct (float_of_string a) as [amt|]; [|done]. cbn.
  split; [by apply prefix_app_r|]. split; [|done].
  destruct (expenses L !! c); rewrite dom_insert_L; set_solver.
Qed.

Lemma load_rows_grows rows L :
  expense_history L `prefix_of` expense_history (ledger_of (load_rows rows L)) ∧
  dom (expenses L) ⊆ dom (expenses (ledger_of (load_rows rows L))) ∧
  budgets (ledger_of (load_rows rows L)) = budgets L.
Proof.
  revert L. induction rows as [|row rows IH]; intros L; [done|].
  cbn. destruct (load_row_grows row L) as (Hh & He & Hb).
  destruct (load_row row L) as [L1|L1]; [|done].
  destruct (IH L1) as (Hh1 & He1 & Hb1). cbn in Hh, He, Hb.
  split; [by etrans|]. split; [by etrans | congruence].
Qed.

Lemma load_grows fs L :
  expense_history L `prefix_of` expense_history (load_data_from_file fs L).1 ∧
  dom (expenses L) ⊆ dom (expenses (load_data_from_file fs L).1) ∧
  dom (budgets L) ⊆ dom (budgets (load_data_from_file fs L).1).
Proof.
  unfold load_data_from_file.
  destruct (record_file fs) as [rows|]; [|done].
  destruct (load_rows_grows (tail rows) L) as (Hh & He & Hb).
  destruct (load_rows (tail rows) L) as [L1|L1]; cbn in *.
  - destruct (meta_file fs) as [m|]; cbn.
    + split; [done|]. rewrite !dom_union_L, Hb. set_solver.
    + by rewrite Hb.
  - by rewrite Hb.
Qed.

(** X6. A load only adds to the ledger, whatever the two files hold and
    whether or not it ends in an error: the history it finds stays, in
    order, at the front of the history, and no category loses its total or
    its budget entry. *)
Theorem load_only_adds fs L :
  expense_history L `prefix_of` expense_history (load_data_from_file fs L).1 ∧
  dom (expenses L) ⊆ dom (expenses (load_data_from_file fs L).1) ∧
  dom (budgets L) ⊆ dom (budgets (load_data_from_file fs L).1).
Proof. apply load_grows. Qed.

(** ** Searching the descriptions *)

Lemma append_cons a s t : String a s +:+ t = String a (s +:+ t).
Proof. reflexivity. Qed.

Lemma prefix_spec sub s :
  String.prefix sub s = true ↔ ∃ post, s = sub +:+ post.
Proof.
  revert s. induction sub as [|a sub IH]; intros s.
  - split; [|by destruct s]. intros _. by exists s.
  - destruct s as [|b s]; cbn [String.prefix].
    + split; [done|]. by intros [post [=]].
    + destruct (Ascii.ascii_dec a b) as [->|Hne].
      * rewrite IH. split; intros [post Hpost]; exists post.
        -- by rewrite append_cons, Hpost.
        -- rewrite append_cons in Hpost. by injection Hpost.
      * split; [done|]. intros [post Hpost].
        rewrite append_cons in Hpost. by injection Hpost as <-.
Qed.

(** [contains] is the test [sub in s] of Python. *)
Lemma contains_spec sub s : contains sub s = true ↔ occurs_in sub s.
Proof.
  unfold occurs_in. induction s as [|a s IH]; cbn [contains].
  - rewrite orb_false_r, prefix_spec. split.
    + intros [post Hpost]. by exists ""%string, post.
    + intros ([|b pre] & post & Hs); [by exists post | done].
  - rewrite orb_true_iff, prefix_spec, IH. split.
    + intros [[post Hpost]|(pre & post & Hs)].
      * by exists ""%string, post.
      * exists (String a pre), post. by rewrite append_cons, Hs.
    + intros ([|b pre] & post & Hs).
      * left. by exists post.
      * right. rewrite append_cons in Hs. injection Hs as _ Hs. eauto.
Qed.

Lemma lower_char_idempotent a : lower_char (lower_char a) = lower_char a.
Proof. by destruct a as [[] [] [] [] [] [] [] []]. Qed.

Lemma lower_idempotent s : lower (lower s) = lower s.
Proof.
  induction s as [|a s IH]; [done|].
  cbn [lower]. by rewrite lower_char_idempotent, IH.
Qed.

Lemma search_expenses_acc keyword (h found : list record) :
  fold_left
    (λ found rec,
       if contains (lower keyword) (lower (rec_desc rec))
       then found ++ [rec] else found) h found
  = found ++ filter (λ r, contains (lower keyword) (lower (rec_desc r)) = true) h.
Proof.
  revert found. induction h as [|r h IH]; intros found; cbn [fold_left].
  - by rewrite filter_nil, app_nil_r.
  - rewrite IH, filter_cons.
    destruct (contains (lower keyword) (lower (rec_desc r))).
    + rewrite decide_True by done. by rewrite <- app_assoc.
    + by rewrite decide_False.
Qed.

Lemma search_expenses_filter keyword L :
  search_expenses keyword L
  = filter (λ r, contains (lower keyword) (lower (rec_desc r)) = true)
      (expense_history L).
Proof. unfold search_expenses. by rewrite search_expenses_acc. Qed.

(** X10. The empty keyword finds every record, and the letter case of the
    keyword does not matter: the keyword and its lower-case form find the
    same records. *)
Theorem search_expenses_empty_and_case keyword L :
  search_expenses "" L = expense_history L ∧
  search_expenses (lower keyword) L = search_expenses keyword L.
Proof.
  rewrite !search_expenses_filter. split.
  - induction (expense_history L) as [|r h IH]; [done|].
    rewrite filter_cons, decide_True; [by rewrite IH|].
    apply contains_spec. by exists ""%string, (lower (rec_desc r)).
  - by rewrite lower_idempotent.
Qed.

Lemma occurs_in_trans s1 s2 s3 :
  occurs_in s1 s2 → occurs_in s2 s3 → occurs_in s1 s3.
Proof.
  intros (pre1 & post1 & ->) (pre2 & post2 & ->).
  exists (pre2 +:+ pre1), (post1 +:+ post2).
  assert (Hassoc : ∀ a b c, (a +:+ b) +:+ c = a +:+ (b +:+ c)).
  { intros a b c. induction a as [|x a IH]; [done|].
    by rewrite !append_cons, IH. }
  by rewrite !Hassoc.
Qed.

(** X9. For a keyword and descriptions that are ASCII texts,
    [search_expenses] lists exactly the records whose description, in lower
    case, has the keyword, in lower case, as a contiguous part: the list is
    the history filtered by that test, so the records come in the order of
    the history and a record entered twice is listed twice. *)
Theorem search_expenses_finds keyword L :
  isascii keyword = true →
  Forall (λ r, isascii (rec_desc r) = true) (expense_history L) →
  search_expenses keyword L
  = filter (λ r, occurs_in (lower keyword) (lower (rec_desc r)))
      (expense_history L).
Proof.
  intros _ _. rewrite search_expenses_filter.
  apply list_filter_iff. intros r. apply contains_spec.
Qed.

Lemma search_expenses_finds_witness :
  search_expenses "Lunch" three_meals
  = filter (λ r, occurs_in (lower "Lunch") (lower (rec_desc r)))
      (expense_history three_meals).
Proof.
  apply (search_expenses_finds "Lunch" three_meals).
  - vm_compute. reflexivity.
  - apply (bool_decide_unpack _). vm_compute. reflexivity.
Defined.

(** X11. A longer keyword narrows the search.  For keywords and
    descriptions that are ASCII texts: if the keyword [k], in lower case,
    occurs in the keyword [k'], in lower case, then the records found for
    [k'] are among those found for [k], in the same order. *)
Theorem search_expenses_narrows k k' L :
  isascii k = true →
  isascii k' = true →
  Forall (λ r, isascii (rec_desc r) = true) (expense_history L) →
  occurs_in (lower k) (lower k') →
  search_expenses k' L `sublist_of` search_expenses k L.
Proof.
  intros _ _ _ Hocc. rewrite !search_expenses_filter.
  induction (expense_history L) as [|r h IH]; [done|].
  rewrite !filter_cons.
  destruct (decide (contains (lower k') (lower (rec_desc r)) = true)) as [Hk'|Hk'].
  - rewrite decide_True; [by apply sublist_skip|].
    apply contains_spec, (occurs_in_trans _ (lower k')); [done|].
    by apply contains_spec.
  - destruct (decide (contains (lower k) (lower (rec_desc r)) = true));
      [by apply sublist_cons | done].
Qed.

Lemma search_expenses_narrows_witness :
  search_expenses "Lunch at work" three_meals
  `sublist_of` search_expenses "lunch" three_meals.
Proof.
  apply (search_expenses_narrows "lunch" "Lunch at work" three_meals).
  - vm_compute. reflexivity.
  - vm_compute. reflexivity.
  - apply (bool_decide_unpack _). vm_compute. reflexivity.
  - exists ""%string, " at work"%string. vm_compute. reflexivity.
Defined.

(** ** Monthly and weekly summaries *)

Section Summaries.
Context `{Strptime}.







Context `{Isocalendar}.


End Summaries.


(** ** Reading the category the user types *)

Lemma get_category_from_input_elem user_input categories c :
  get_category_from_input user_input categories = Some c → c ∈ categories.
Proof.
  unfold get_category_from_input. intros Hget.
  assert (Hname : ∀ c, find (λ cat, bool_decide (lower (strip user_input) = lower cat))
                         categories = Some c → c ∈ categories).
  { intros c' Hfind. by apply find_some in Hfind as [?%list_elem_of_In _]. }
  destruct (isdigit (strip user_input)); [|by apply Hname].
  destruct (_ && _); [|by apply Hname].
  by apply list_elem_of_lookup_2 in Hget.
Qed.

Lemma lower_char_is_digit a : is_digit (lower_char a) = is_digit a.
Proof. by destruct a as [[] [] [] [] [] [] [] []]. Qed.

Lemma lower_isdigit s : isdigit (lower s) = isdigit s.
Proof.
  unfold isdigit. f_equal.
  - by destruct s.
  - induction s as [|a s IH]; [done|].
    cbn [lower all_digits]. by rewrite lower_char_is_digit, IH.
Qed.

(** X18. The name of a default category, typed in any letter case and with
    blanks around it, is resolved to that very category. *)
Theorem get_category_from_input_default user_input c :
  c ∈ DEFAULT_CATEGORIES →
  lower (strip user_input) = lower c →
  get_category_from_input user_input DEFAULT_CATEGORIES = Some c.
Proof.
  intros Hc Hlow. unfold get_category_from_input.
  rewrite <- lower_isdigit, Hlow.
  unfold DEFAULT_CATEGORIES in Hc.
  repeat (apply elem_of_cons in Hc as [->|Hc]; [vm_compute; reflexivity|]).
  by apply elem_of_nil in Hc.
Qed.

Lemma get_category_from_input_default_witness :
  get_category_from_input "  HEALTH" DEFAULT_CATEGORIES = Some "Health"%string.
Proof.
  apply (get_category_from_input_default "  HEALTH" "Health").
  - unfold DEFAULT_CATEGORIES. do 4 right. left.
  - vm_compute. reflexivity.
Defined.

Lemma nat_of_digit q :
  (q < 10)%nat → Ascii.nat_of_ascii (digit q) = (48 + q)%nat.
Proof. intros Hq. unfold digit. apply Ascii.nat_ascii_embedding. lia. Qed.

Lemma digits_quotient w n : (n < 10 ^ S w)%nat → (n / 10 ^ w < 10)%nat.
Proof.
  intros Hn. rewrite Nat.pow_succ_r' in Hn.
  apply Nat.Div0.div_lt_upper_bound. lia.
Qed.

Lemma all_digits_digits w n : (n < 10 ^ w)%nat → all_digits (digits w n) = true.
Proof.
  revert n. induction w as [|w IH]; intros n Hn; [done|].
  cbn [digits all_digits]. rewrite IH.
  - unfold is_digit. rewrite nat_of_digit by by apply digits_quotient.
    pose proof (digits_quotient w n Hn).
    rewrite andb_true_r, andb_true_iff, !Nat.leb_le. lia.
  - apply Nat.mod_upper_bound, Nat.pow_nonzero. lia.
Qed.

Lemma int_from_digits w n acc :
  (n < 10 ^ w)%nat →
  int_from acc (digits w n) = acc * 10 ^ Z.of_nat w + Z.of_nat n.
Proof.
  revert n acc. induction w as [|w IH]; intros n acc Hn.
  - cbn in *. lia.
  - cbn [digits int_from].
    assert (Hpos : (10 ^ w ≠ 0)%nat) by (apply Nat.pow_nonzero; lia).
    rewrite IH by by apply Nat.mod_upper_bound.
    rewrite nat_of_digit by by apply digits_quotient.
    rewrite Nat2Z.inj_succ, Z.pow_succ_r by lia.
    pose proof (Nat.div_mod_eq n (10 ^ w)) as Hdiv.
    apply (f_equal Z.of_nat) in Hdiv.
    rewrite Nat2Z.inj_add, Nat2Z.inj_mul, Nat2Z.inj_pow in Hdiv.
    rewrite Nat2Z.inj_add. change (Z.of_nat 10) with 10 in Hdiv.
    change (Z.of_nat 48) with 48. lia.
Qed.

Lemma is_digit_not_whitespace a : is_digit a = true → is_whitespace a = false.
Proof. by destruct a as [[] [] [] [] [] [] [] []]. Qed.

Lemma lstrip_digits s : all_digits s = true → lstrip s = s.
Proof.
  destruct s as [|a s]; [done|]. cbn [all_digits lstrip].
  intros [Ha _]%andb_true_iff. by rewrite is_digit_not_whitespace.
Qed.

Lemma rev_app_rev_app s1 s2 s3 :
  String.rev_app (String.rev_app s1 s2) s3 = String.rev_app s2 (s1 +:+ s3).
Proof.
  revert s2 s3. induction s1 as [|a s1 IH]; intros s2 s3; [done|].
  cbn [String.rev_app]. by rewrite IH.
Qed.

Lemma rev_involutive s : String.rev (String.rev s) = s.
Proof.
  unfold String.rev. rewrite rev_app_rev_app. cbn [String.rev_app].
  induction s as [|a s IH]; [done|]. by rewrite append_cons, IH.
Qed.

Lemma all_digits_rev_app s1 s2 :
  all_digits (String.rev_app s1 s2) = all_digits s1 && all_digits s2.
Proof.
  revert s2. induction s1 as [|a s1 IH]; intros s2; [done|].
  cbn [String.rev_app all_digits]. rewrite IH. cbn [all_digits].
  by destruct (is_digit a), (all_digits s1), (all_digits s2).
Qed.

Lemma strip_digits s : all_digits s = true → strip s = s.
Proof.
  intros Hs. unfold strip. rewrite (lstrip_digits s Hs).
  rewrite lstrip_digits, rev_involutive; [done|].
  unfold String.rev. by rewrite all_digits_rev_app, Hs.
Qed.

Lemma find_head_filter {A} (P : A → Prop) `{∀ x, Decision (P x)} (l : list A) :
  find (λ x, bool_decide (P x)) l = head (filter P l).
Proof.
  induction l as [|x l IH]; [done|]. cbn [find]. rewrite filter_cons.
  destruct (decide (P x)).
  - by rewrite bool_decide_eq_true_2.
  - by rewrite bool_decide_eq_false_2.
Qed.

(** X16. On an ASCII input of at most 4300 characters between its blanks,
    and ASCII categories, where [int] cannot raise,
    [get_category_from_input] returns [None] or one of the categories it is
    given, never any other text. *)
Theorem get_category_from_input_sound user_input categories :
  isascii user_input = true →
  Forall (λ cat, isascii cat = true) categories →
  (String.length (strip user_input) ≤ 4300)%nat →
  match get_category_from_input user_input categories with
  | Some c => c ∈ categories
  | None => True
  end.
Proof.
  intros _ _ _.
  destruct (get_category_from_input user_input categories) as [c|] eqn:Hc; [|done].
  by apply (get_category_from_input_elem user_input).
Qed.

Lemma get_category_from_input_sound_witness :
  match get_category_from_input "  1 " DEFAULT_CATEGORIES with
  | Some c => c ∈ DEFAULT_CATEGORIES
  | None => True
  end.
Proof.
  apply (get_category_from_input_sound "  1 " DEFAULT_CATEGORIES).
  - vm_compute. reflexivity.
  - apply (bool_decide_unpack _). vm_compute. reflexivity.
  - vm_compute. lia.
Defined.

(** X17. An ASCII input that, stripped, is not a numeral selects by name:
    among ASCII categories, [get_category_from_input] returns the first of
    the list that equals the stripped input up to letter case, and [None]
    when there is none. *)
Theorem get_category_from_input_by_name user_input categories :
  isascii user_input = true →
  Forall (λ cat, isascii cat = true) categories →
  isdigit (strip user_input) = false →
  get_category_from_input user_input categories
  = head (filter (λ cat, lower (strip user_input) = lower cat) categories).
Proof.
  intros _ _ Hnum. unfold get_category_from_input. rewrite Hnum.
  apply (find_head_filter (λ cat, lower (strip user_input) = lower cat)).
Qed.

Lemma get_category_from_input_by_name_witness :
  get_category_from_input " fOOd " ["Other"; "Food"; "FOOD"]%string
  = head (filter (λ cat, lower (strip " fOOd ") = lower cat)
            ["Other"; "Food"; "FOOD"]%string).
Proof.
  apply (get_category_from_input_by_name " fOOd " ["Other"; "Food"; "FOOD"]%string).
  - vm_compute. reflexivity.
  - apply (bool_decide_unpack _). vm_compute. reflexivity.
  - vm_compute. reflexivity.
Defined.

(** X19. A decimal numeral of [w] digits, [w] between 1 and 4300 (so with
    leading zeros, up to the length [int] accepts), whose value is [n],
    selects [categories[n-1]] when [1 <= n <= len(categories)].  For [n = 0]
    and for [n] beyond the length nothing is selected by position, and the
    numeral is looked up as a name among the categories, taken to be ASCII
    texts: zero never selects the last category through a negative index. *)
Theorem get_category_from_input_by_number w n categories :
  (0 < w ≤ 4300)%nat →
  (n < 10 ^ w)%nat →
  Forall (λ cat, isascii cat = true) categories →
  get_category_from_input (digits w n) categories
  = if decide (1 ≤ n ≤ length categories)%nat
    then categories !! (n - 1)%nat
    else head (filter (λ cat, lower (digits w n) = lower cat) categories).
Proof.
  intros [Hw _] Hn _. unfold get_category_from_input.
  pose proof (all_digits_digits w n Hn) as Hdig.
  rewrite (strip_digits _ Hdig).
  assert (Hisdigit : isdigit (digits w n) = true).
  { unfold isdigit. rewrite Hdig. by destruct w; [lia|]. }
  rewrite Hisdigit. unfold int. rewrite int_from_digits by done.
  rewrite Z.mul_0_l, Z.add_0_l.
  rewrite (find_head_filter (λ cat, lower (digits w n) = lower cat)).
  destruct (decide (1 ≤ n ≤ length categories)%nat) as [Hin|Hout].
  - replace ((0 <=? Z.of_nat n - 1) && (Z.of_nat n - 1 <? Z.of_nat (length categories)))
      with true by (symmetry; apply andb_true_iff; split;
                    [apply Z.leb_le | apply Z.ltb_lt]; lia).
    f_equal. lia.
  - replace ((0 <=? Z.of_nat n - 1) && (Z.of_nat n - 1 <? Z.of_nat (length categories)))
      with false; [done|].
    symmetry. apply andb_false_iff.
    destruct (decide (n = 0)%nat) as [->|Hn0].
    + left. by apply Z.leb_gt.
    + right. apply Z.ltb_ge. lia.
Qed.

Lemma get_category_from_input_by_number_witness :
  get_category_from_input (digits 2 3) DEFAULT_CATEGORIES
  = if decide (1 ≤ 3 ≤ length DEFAULT_CATEGORIES)%nat
    then DEFAULT_CATEGORIES !! (3 - 1)%nat
    else head (filter (λ cat, lower (digits 2 3) = lower cat) DEFAULT_CATEGORIES).
Proof.
  apply (get_category_from_input_by_number 2 3 DEFAULT_CATEGORIES).
  - lia.
  - cbn. lia.
  - apply (bool_decide_unpack _). vm_compute. reflexivity.
Defined.

Example third_category_by_number :
  get_category_from_input "03" DEFAULT_CATEGORIES = Some "Entertainment"%string.
Proof. vm_compute. reflexivity. Qed.

Example zero_selects_nothing :
  get_category_from_input "0" DEFAULT_CATEGORIES = None.
Proof. vm_compute. reflexivity. Qed.

(** ** The order of the history *)

Lemma StronglySorted_sublist {A} (R : relation A) (l1 l2 : list A) :
  l1 `sublist_of` l2 → StronglySorted R l2 → StronglySorted R l1.
Proof.
  induction 1 as [|x l1 l2 Hsub IH|x l1 l2 Hsub IH]; intros Hsorted.
  - constructor.
  - apply StronglySorted_cons in Hsorted as [Hall Hsorted].
    apply StronglySorted_cons. split; [|by apply IH].
    apply Forall_forall. intros y Hy.
    apply (proj1 (Forall_forall _ _) Hall). by eapply sublist_subseteq.
  - apply StronglySorted_cons in Hsorted as [_ Hsorted]. by apply IH.
Qed.

Lemma run_dates_sublist ops L :
  rec_date <$> expense_history (run ops L)
  `sublist_of` (rec_date <$> expense_history L) ++ clock_readings ops.
Proof.
  revert L. induction ops as [|o ops IH]; intros L.
  - cbn. by rewrite app_nil_r.
  - change (run (o :: ops) L) with (run ops (step L o)).
    etrans; [apply IH|]. destruct o as [today cat x d|cat x|]; cbn [step].
    + change (clock_readings (Add today cat x d :: ops))
        with (today :: clock_readings ops).
      unfold add_expense.
      destruct (expenses L !! cat); [|by apply sublist_app, sublist_cons].
      destruct (float x) as [a|]; [|by apply sublist_app, sublist_cons].
      destruct (a <=? 0); [by apply sublist_app, sublist_cons|].
      cbn [fst expense_history]. rewrite fmap_app, <- app_assoc. done.
    + destruct (set_budget_frame cat x L) as (_ & -> & _). done.
    + apply sublist_inserts_l. done.
Qed.

(** X21. When the clock does not go back between the [add_expense] calls
    of a run from the initial ledger, the history is in the order of the
    dates: no record is dated before a record that precedes it. *)
Theorem history_is_chronological ops :
  StronglySorted date_le (clock_readings ops) →
  StronglySorted date_le (rec_date <$> expense_history (run ops initial_ledger)).
Proof.
  intros Hclock. eapply StronglySorted_sublist; [|exact Hclock].
  apply (run_dates_sublist ops initial_ledger).
Qed.

Lemma history_is_chronological_witness :
  StronglySorted date_le
    (rec_date <$> expense_history
       (run [Add "2024-01-01" "Food" (PStr "10") "lunch";
             Add "2024-01-01" "Other" (PStr "abc") "";
             Add "2024-01-03" "Health" (PStr "7") "pills"] initial_ledger)).
Proof.
  apply (history_is_chronological
           [Add "2024-01-01" "Food" (PStr "10") "lunch";
            Add "2024-01-01" "Other" (PStr "abc") "";
            Add "2024-01-03" "Health" (PStr "7") "pills"]).
  cbn [clock_readings omap]. repeat constructor.
Defined.

(** ** The ledgers the program can be in *)

(** X22. Whatever the operations called and whatever the files loaded, also
    files that end a load in an error, the ledger keeps a total for every
    default category and for the category of every record of its history. *)
Theorem reachable_ledger_well_formed L :
  reachable L →
  (∀ c, c ∈ DEFAULT_CATEGORIES → is_Some (expenses L !! c)) ∧
  (∀ r, r ∈ expense_history L → is_Some (expenses L !! rec_cat r)).
Proof. apply reachable_well_formed. Qed.

Lemma reachable_ledger_well_formed_witness :
  (∀ c, c ∈ DEFAULT_CATEGORIES
        → is_Some (expenses (load_data_from_file file_with_bad_amount
                               initial_ledger).1 !! c)) ∧
  (∀ r, r ∈ expense_history (load_data_from_file file_with_bad_amount
                               initial_ledger).1
        → is_Some (expenses (load_data_from_file file_with_bad_amount
                               initial_ledger).1 !! rec_cat r)).
Proof.
  apply (reachable_ledger_well_formed
           (load_data_from_file file_with_bad_amount initial_ledger).1).
  exact (reach_load initial_ledger file_with_bad_amount reach_initial).
Defined.

(** * Properties over binary64 amounts *)

Section Binary64Properties.
Import Floats.
Import Binary64.

(** ** Dictionaries *)

Lemma dict_get_set_eq {V} (d : dict V) k v : dict_get (dict_set d k v) k = Some v.
Proof.
  induction d as [|[k' v'] d IH]; cbn.
  - by rewrite String.eqb_refl.
  - destruct (String.eqb_spec k' k) as [->|Hne]; cbn.
    + by rewrite String.eqb_refl.
    + by apply String.eqb_neq in Hne as ->.
Qed.

Lemma dict_get_set_ne {V} (d : dict V) k k' v :
  k ≠ k' → dict_get (dict_set d k v) k' = dict_get d k'.
Proof.
  intros Hne. induction d as [|[k0 v0] d IH]; cbn.
  - by apply String.eqb_neq in Hne as ->.
  - destruct (String.eqb_spec k0 k) as [->|Hk0]; cbn.
    + by apply String.eqb_neq in Hne as ->.
    + by rewrite IH.
Qed.

Lemma dict_keys_set {V} (d : dict V) k v :
  is_Some (dict_get d k) → dict_keys (dict_set d k v) = dict_keys d.
Proof.
  unfold dict_keys. induction d as [|[k' v'] d IH]; cbn; [by intros [? [=]]|].
  destruct (String.eqb_spec k' k) as [->|Hne]; [done|].
  intros Hk. cbn. by rewrite IH.
Qed.

Lemma dict_get_not_key {V} (d : dict V) k : k ∉ dict_keys d → dict_get d k = None.
Proof.
  unfold dict_keys. induction d as [|[k' v'] d IH]; cbn; [done|].
  intros Hk. apply not_elem_of_cons in Hk as [Hne Hk].
  destruct (String.eqb_spec k' k) as [->|_]; [done | by apply IH].
Qed.

(** ** Comparisons of floats *)

Lemma positive_not_le a : (0 <? a)%float = true → (a <=? 0)%float = false.
Proof.
  rewrite ltb_spec, leb_spec. change (Prim2SF 0%float) with (S754_zero false).
  unfold SFltb, SFleb.
  by destruct (Prim2SF a) as [[]|[]| |[] m e].
Qed.

Lemma not_le_nonzero a : (a <=? 0)%float = false → (a =? 0)%float = false.
Proof.
  rewrite leb_spec, eqb_spec. unfold SFleb, SFeqb.
  by destruct (SFcompare _ _) as [[]|].
Qed.

(** ** Adding an expense *)

(** C3, as stated, fails: on a ledger whose total for Food is 1e16, adding 1
    to Food succeeds and appends its record, but the sum of 1e16 and 1
    rounds to 1e16: the total of Food and the grand total are what they
    were, not 1 more. *)
Lemma add_expense_absorbed :
  (0 <? 1)%float = true ∧
  (@add_expense examples_text "2024-01-02" "Food" (PStr "1") "tea" big_food).2
    = ExpenseAdded 1%float "Food" ∧
  expenses
    (@add_expense examples_text "2024-01-02" "Food" (PStr "1") "tea" big_food).1
    = expenses big_food ∧
  calculate_total_expenses
    (@add_expense examples_text "2024-01-02" "Food" (PStr "1") "tea" big_food).1
    = calculate_total_expenses big_food ∧
  (calculate_total_expenses
     (@add_expense examples_text "2024-01-02" "Food" (PStr "1") "tea" big_food).1
   - calculate_total_expenses big_food =? 1)%float = false.
Proof. repeat split; vm_compute; reflexivity. Qed.

(** C3, amended. For a known category [c] (its total is [total]) and an
    amount that reads as [a > 0], [add_expense] succeeds: the total of [c]
    becomes the float sum of [total] and [a], the other totals, the order of
    the categories and the budgets stay, so that the grand total is the sum
    of the same totals with that of [c] replaced, and the history gets
    exactly one more record, at its end, stamped with the current date. *)
Theorem add_expense_rounds `{PyFloatText} today c x d L total a :
  dict_get (expenses L) c = Some total →
  float x = Some a →
  (0 <? a)%float = true →
  ∃ L', add_expense today c x d L = (L', ExpenseAdded a c) ∧
    expenses L' = dict_set (expenses L) c (total + a)%float ∧
    dict_get (expenses L') c = Some (total + a)%float ∧
    (∀ c', c' ≠ c → dict_get (expenses L') c' = dict_get (expenses L) c') ∧
    dict_keys (expenses L') = dict_keys (expenses L) ∧
    calculate_total_expenses L'
      = fold_left PrimFloat.add
          (dict_values (dict_set (expenses L) c (total + a)%float)) 0%float ∧
    expense_history L' = expense_history L ++ [Rec today c a d] ∧
    budgets L' = budgets L.
Proof.
  intros Hc Hx Ha. unfold add_expense. rewrite Hc, Hx.
  rewrite (positive_not_le a Ha).
  eexists. split; [reflexivity|]. unfold calculate_total_expenses.
  cbn [expenses expense_history budgets].
  split; [done|]. split; [apply dict_get_set_eq|].
  split; [intros c' Hne; by apply dict_get_set_ne|].
  split; [apply dict_keys_set; eauto | done].
Qed.

Lemma add_expense_rounds_witness :
  ∃ L', @add_expense examples_text "2024-01-02" "Food" (PStr "1") "tea" big_food
        = (L', ExpenseAdded 1%float "Food") ∧
    expenses L' = dict_set (expenses big_food) "Food" (1e16 + 1)%float ∧
    dict_get (expenses L') "Food" = Some (1e16 + 1)%float ∧
    (∀ c', c' ≠ "Food"%string
           → dict_get (expenses L') c' = dict_get (expenses big_food) c') ∧
    dict_keys (expenses L') = dict_keys (expenses big_food) ∧
    calculate_total_expenses L'
      = fold_left PrimFloat.add
          (dict_values (dict_set (expenses big_food) "Food" (1e16 + 1)%float))
          0%float ∧
    expense_history L'
      = expense_history big_food ++ [Rec "2024-01-02" "Food" 1%float "tea"] ∧
    budgets L' = budgets big_food.
Proof.
  apply (add_expense_rounds (H := examples_text) "2024-01-02" "Food" (PStr "1")
           "tea" big_food 1e16%float 1%float).
  - vm_compute. reflexivity.
  - vm_compute. reflexivity.
  - vm_compute. reflexivity.
Defined.




(** ** Malformed rows *)

Lemma load_rows_append `{PyFloatText} rows1 rows2 L :
  load_rows (rows1 ++ rows2) L
  = match load_rows rows1 L with
    | Completed L1 => load_rows rows2 L1
    | Raised L1 => Raised L1
    end.
Proof.
  revert L. induction rows1 as [|row rows1 IH]; intros L; cbn; [done|].
  destruct (load_row row L); [apply IH | done].
Qed.

Lemma load_row_short `{PyFloatText} row L :
  too_short row → load_row row L = Completed L.
Proof. intros Hlen. unfold load_row. by rewrite decide_True. Qed.

Lemma load_row_not_numeric `{PyFloatText} row L :
  amount_not_numeric row → load_row row L = Raised L.
Proof.
  intros (d & c & a & desc & -> & Ha). unfold load_row; cbn. by rewrite Ha.
Qed.

Lemma reader_app rows1 rows2 : reader (rows1 ++ rows2) = reader rows1 ++ reader rows2.
Proof. unfold reader. apply fmap_app. Qed.

(** C5, as stated, fails: the row with the amount "abc" ends the load, and the
    well-formed row after it is not loaded, although it loads on its own. *)
Lemma load_stops_at_bad_amount :
  @load_row examples_text ["2024-01-03"; "Other"; "5"; "c"]%string initial_ledger
    = Completed
        {| expenses := dict_set (expenses initial_ledger) "Other" 5%float;
           expense_history := [Rec "2024-01-03" "Other" 5%float "c"];
           budgets := budgets initial_ledger |} ∧
  (@load_data_from_file examples_text file_with_bad_amount initial_ledger).2
    = ErrorLoading ∧
  expense_history
    (@load_data_from_file examples_text file_with_bad_amount initial_ledger).1
    = [Rec "2024-01-01" "Food" 10%float "a"].
Proof. repeat split; vm_compute; reflexivity. Qed.

(** C5, amended. A data row with fewer than four fields is skipped on its
    own: the load gives what it gives on the file without that row.  A row
    of four fields whose amount, as the reader yields it, is not numeric ends
    the load: the ledger is the one the rows before it produced, the rows
    after it and the metadata file are not read, and the load reports an
    error. *)
Theorem load_short_or_not_numeric `{PyFloatText} head rows1 row rows2 m L :
  too_short row ∨ amount_not_numeric (universal_newlines <$> row) →
  load_data_from_file
    {| record_file := Some (head :: rows1 ++ row :: rows2); meta_file := m |} L
  = if decide (too_short row)
    then load_data_from_file
           {| record_file := Some (head :: rows1 ++ rows2); meta_file := m |} L
    else (ledger_of (load_rows (reader rows1) L), ErrorLoading).
Proof.
  intros Hrow. unfold load_data_from_file; cbn [record_file meta_file].
  change (tail (reader (head :: rows1 ++ row :: rows2)))
    with (reader (rows1 ++ row :: rows2)).
  change (tail (reader (head :: rows1 ++ rows2))) with (reader (rows1 ++ rows2)).
  rewrite !reader_app, !load_rows_append.
  change (reader (row :: rows2))
    with ((universal_newlines <$> row) :: reader rows2).
  destruct (decide (too_short row)) as [Hshort|Hlong].
  - destruct (load_rows (reader rows1) L) as [L1|L1]; [|done].
    cbn [load_rows]. rewrite load_row_short; [done|].
    unfold too_short in *. by rewrite length_fmap.
  - destruct Hrow as [?|Hbad]; [done|].
    destruct (load_rows (reader rows1) L) as [L1|L1]; [|done].
    cbn [load_rows]. by rewrite load_row_not_numeric.
Qed.

Lemma load_short_or_not_numeric_witness :
  @load_data_from_file examples_text file_with_bad_amount initial_ledger
  = if decide (too_short ["2024-01-02"; "Food"; "abc"; "b"]%string)
    then @load_data_from_file examples_text
           {| record_file :=
                Some (header :: [["2024-01-01"; "Food"; "10"; "a"]%string]
                        ++ [["2024-01-03"; "Other"; "5"; "c"]%string]);
              meta_file := None |} initial_ledger
    else (ledger_of
            (@load_rows examples_text
               (reader [["2024-01-01"; "Food"; "10"; "a"]%string])
               initial_ledger),
          ErrorLoading).
Proof.
  apply (load_short_or_not_numeric (H := examples_text) header
           [["2024-01-01"; "Food"; "10"; "a"]%string]
           ["2024-01-02"; "Food"; "abc"; "b"]%string
           [["2024-01-03"; "Other"; "5"; "c"]%string] None initial_ledger).
  right. exists "2024-01-02"%string, "Food"%string, "abc"%string, "b"%string.
  split; vm_compute; reflexivity.
Defined.

(** ** A NaN amount *)

(** C6 at the amount "nan": the test [amount <= 0] is false of NaN, so the
    expense is recorded and the total of the category becomes NaN, which is
    not at least zero and which [==] does not find equal to the sum of the
    amounts of the records of the category. *)
Theorem nan_amount_is_recorded :
  (@add_expense examples_text "2024-01-01" "Food" (PStr "nan") ""
     initial_ledger).2 = ExpenseAdded nan "Food" ∧
  expense_history
    (@add_expense examples_text "2024-01-01" "Food" (PStr "nan") ""
       initial_ledger).1 = [Rec "2024-01-01" "Food" nan ""] ∧
  dict_get
    (expenses
       (@add_expense examples_text "2024-01-01" "Food" (PStr "nan") ""
          initial_ledger).1) "Food" = Some nan ∧
  (0 <=? nan)%float = false ∧
  (nan =? category_sum "Food" [Rec "2024-01-01" "Food" nan ""])%float = false.
Proof. repeat split; vm_compute; reflexivity. Qed.

(** ** A carriage return in a description *)

(** C1 at a ledger with one expense whose description holds a carriage
    return: the file is written with [newline=''] and read without, so the
    record comes back with a line feed in its place, and the history loaded
    is not the history saved. *)
Theorem carriage_return_not_restored :
  expense_history lunch_cr = [Rec "2024-01-01" "Food" 10%float two_lines_cr] ∧
  @load_data_from_file examples_text (@save_data_to_file examples_text lunch_cr)
    initial_ledger
  = ({| expenses := expenses lunch_cr;
        expense_history := [Rec "2024-01-01" "Food" 10%float two_lines_lf];
        budgets := budgets lunch_cr |}, Loaded) ∧
  two_lines_lf ≠ two_lines_cr.
Proof.
  split; [vm_compute; reflexivity|]. split; [vm_compute; reflexivity|].
  vm_compute. discriminate.
Qed.

(** ** Loading what was saved *)











(** ** Totals and history *)

Lemma dict_get_zeroed (d : dict PrimFloat.float) k :
  dict_get ((λ item, (item.1, 0%float)) <$> d) k = (λ _, 0%float) <$> dict_get d k.
Proof.
  induction d as [|[k' v'] d IH]; cbn; [done|].
  by destruct (String.eqb k' k).
Qed.

Lemma category_sum_append c h r :
  category_sum c (h ++ [r])
  = if decide (rec_cat r = c)
    then (category_sum c h + rec_amt r)%float
    else category_sum c h.
Proof.
  unfold category_sum. rewrite filter_app, fmap_app, fold_left_app.
  rewrite filter_cons, filter_nil. by destruct (decide (rec_cat r = c)).
Qed.

Lemma totals_are_sums_initial : totals_are_sums initial_ledger.
Proof.
  intros c. cbn [expenses expense_history initial_ledger].
  destruct (decide (c ∈ DEFAULT_CATEGORIES)) as [Hin|Hout].
  - unfold DEFAULT_CATEGORIES in Hin.
    repeat (apply elem_of_cons in Hin as [->|Hin]; [vm_compute; reflexivity|]).
    by apply elem_of_nil in Hin.
  - apply dict_get_not_key. unfold dict_keys.
    rewrite <- list_fmap_compose. by rewrite list_fmap_id.
Qed.

Lemma totals_are_sums_step `{PyFloatText} L o :
  totals_are_sums L → totals_are_sums (step L o).
Proof.
  intros Hsync. destruct o as [today cat x d|cat x|]; cbn [step].
  - unfold add_expense.
    destruct (dict_get (expenses L) cat) as [total|] eqn:Hc; [|done].
    destruct (float x) as [a|]; [|done].
    destruct (a <=? 0)%float; [done|]. intros c.
    cbn [fst expenses expense_history].
    rewrite category_sum_append. cbn [rec_cat rec_amt].
    destruct (decide (cat = c)) as [->|Hne].
    + rewrite dict_get_set_eq. specialize (Hsync c). rewrite Hc in Hsync.
      destruct (decide (c ∈ DEFAULT_CATEGORIES)); [|done].
      by injection Hsync as ->.
    + rewrite dict_get_set_ne by done. apply Hsync.
  - unfold set_budget.
    destruct (dict_get (budgets L) cat); [|done].
    destruct (float x) as [a|]; [|done].
    by destruct (a <=? 0)%float.
  - intros c. cbn [remove_all_expenses expenses expense_history].
    rewrite dict_get_zeroed, Hsync.
    by destruct (decide (c ∈ DEFAULT_CATEGORIES)).
Qed.

(** X23. After any sequence of [add_expense], [set_budget] and
    [remove_all_expenses] calls from the initial ledger, the totals have
    exactly the default categories as keys, and the total of each is the
    very float that adding the amounts of its records to zero, one after the
    other in the order of the history, gives; this is so with NaN and
    infinite amounts too. *)
Theorem totals_are_float_sums `{PyFloatText} ops :
  totals_are_sums (run ops initial_ledger).
Proof.
  assert (Hgen : ∀ L, totals_are_sums L → totals_are_sums (run ops L)).
  { induction ops as [|o ops IH]; intros L HL; [done|].
    apply IH. by apply totals_are_sums_step. }
  apply Hgen, totals_are_sums_initial.
Qed.

(** ** Budgets *)

(** X1. [set_budget] never touches the totals or the history, keeps the
    categories that have a budget entry and their order, and leaves the
    entries of the other categories alone.  When it reports an error the
    ledger is the same as before; when it does not, the amount read is not
    at most zero, and it is the new budget of the category. *)
Theorem set_budget_changes_one_budget `{PyFloatText} c x L :
  expenses (set_budget c x L).1 = expenses L ∧
  expense_history (set_budget c x L).1 = expense_history L ∧
  dict_keys (budgets (set_budget c x L).1) = dict_keys (budgets L) ∧
  (∀ c', c' ≠ c → dict_get (budgets (set_budget c x L).1) c'
                  = dict_get (budgets L) c') ∧
  match error_kind (set_budget c x L).2 with
  | Some kind =>
    (set_budget c x L).1 = L ∧
    kind = match dict_get (budgets L) c with
           | Some _ => InvalidAmount
           | None => InvalidCategory
           end
  | None =>
    ∃ a, float x = Some a ∧ (a <=? 0)%float = false ∧
         (set_budget c x L).2 = BudgetSet c a ∧
         dict_get (budgets (set_budget c x L).1) c = Some (Some a)
  end.
Proof.
  unfold set_budget.
  destruct (dict_get (budgets L) c) as [old|] eqn:Hc; [|done].
  destruct (float x) as [a|]; [|done].
  destruct (a <=? 0)%float eqn:Ha; [done|]. cbn.
  repeat split.
  - apply dict_keys_set. eauto.
  - intros c' Hne. by apply dict_get_set_ne.
  - exists a. by rewrite dict_get_set_eq.
Qed.

Lemma rows_of_other_categories (e : dict PrimFloat.float)
    (b : dict (option PrimFloat.float)) c :
  c ∉ dict_keys b →
  filter (λ row, row_cat row = c)
    (view_budgets {| expenses := e; expense_history := []; budgets := b |}) = [].
Proof.
  unfold view_budgets, dict_keys. cbn [budgets expenses].
  induction b as [|[k v] b IH]; [done|].
  intros Hk. apply not_elem_of_cons in Hk as [Hne Hk].
  rewrite fmap_cons, filter_cons. cbn [row_cat].
  rewrite decide_False by done. by apply IH.
Qed.

(** X15. After [set_budget] has set the budget of a category, the budget
    view has exactly one row for that category: it shows the budget, the
    total spent in the category (zero when it has no total), and as the
    remainder the float difference of the two, which is negative when the
    budget is exceeded. *)
Theorem view_budgets_after_set_budget `{PyFloatText} c x L old a :
  NoDup (dict_keys (budgets L)) →
  dict_get (budgets L) c = Some old →
  float x = Some a →
  (a <=? 0)%float = false →
  filter (λ row, row_cat row = c) (view_budgets (set_budget c x L).1)
  = [BudgetRow c (Some a) (default 0%float (dict_get (expenses L) c))
       (Some (a - default 0%float (dict_get (expenses L) c))%float)].
Proof.
  intros Hdup Hc Hx Ha. unfold set_budget. rewrite Hc, Hx, Ha. cbn [fst].
  pose proof (not_le_nonzero a Ha) as Hnz.
  destruct L as [e h b]. cbn [budgets expenses] in *. clear Hx.
  unfold view_budgets. cbn [budgets expenses].
  induction b as [|[k v] b IH]; [done|].
  unfold dict_keys in Hdup. cbn in Hdup, Hc.
  apply NoDup_cons in Hdup as [Hk Hdup]. cbn [dict_set].
  destruct (String.eqb_spec k c) as [->|Hne].
  - rewrite fmap_cons, filter_cons. cbn [row_cat].
    rewrite decide_True by done. rewrite Hnz. cbn. f_equal.
    apply (rows_of_other_categories e b c Hk).
  - rewrite fmap_cons, filter_cons. cbn [row_cat].
    rewrite decide_False by done. by apply IH.
Qed.

Lemma view_budgets_after_set_budget_witness :
  filter (λ row, row_cat row = "Food"%string)
    (view_budgets (@set_budget examples_text "Food" (PStr "5") lunch_cr).1)
  = [BudgetRow "Food" (Some 5%float)
       (default 0%float (dict_get (expenses lunch_cr) "Food"))
       (Some (5 - default 0%float (dict_get (expenses lunch_cr) "Food"))%float)].
Proof.
  apply (view_budgets_after_set_budget (H := examples_text) "Food" (PStr "5")
           lunch_cr None 5%float).
  - apply (bool_decide_unpack _). vm_compute. reflexivity.
  - vm_compute. reflexivity.
  - vm_compute. reflexivity.
  - vm_compute. reflexivity.
Defined.

End Binary64Properties.
